(** * Rare-disease RAG chatbot: the helper functions of streamlit_app.py

    A shallow embedding of the query-to-prompt pipeline of
    [streamlit_app.py]: the keyword extractors, the two dictionary
    look-ups, the loader of the gene table, the prompt template and the
    question/answer turn.

    Conventions.
    - A Python [str] is a [string].  [lower], [upper], [strip], the slice
      [s[:n]] and the regular-expression classes [\d], [\w], [\b], [[A-Z]]
      are Python's on ASCII strings: Python handles the other characters by
      the Unicode tables, which are not modelled here, so the embedding is
      that of the code on ASCII input ([is_ascii]).
    - A Python [dict] used as a table is a [gmap]; [d.get(k)] is [d !! k].
    - A call that can raise returns [py_result]; a raised object records
      whether it is an instance of [Exception], which is what
      [except Exception] catches.  External services (the vector store, the
      chat model) are Section variables. *)

From Stdlib Require Import Ascii String List NArith Bool Lia.
From stdpp Require Import base option gmap strings list fin_maps.
Import ListNotations.

Local Open Scope string_scope.
Local Open Scope list_scope.

(** ** Python string primitives *)

Module PyStr.

Definition code (c : ascii) : N := N_of_ascii c.

Definition between (lo hi : N) (c : ascii) : bool :=
  (lo <=? code c)%N && (code c <=? hi)%N.

Definition is_digit (c : ascii) : bool := between 48 57 c.
Definition is_upper (c : ascii) : bool := between 65 90 c.
Definition is_lower (c : ascii) : bool := between 97 122 c.
Definition is_alpha (c : ascii) : bool := is_upper c || is_lower c.
Definition is_alnum (c : ascii) : bool := is_alpha c || is_digit c.

(** [\w]: letters, digits and the underscore. *)
Definition is_word (c : ascii) : bool := is_alnum c || (code c =? 95)%N.

(** [str.strip()] removes these: TAB, LF, VT, FF, CR, FS, GS, RS, US, SPACE. *)
Definition is_space (c : ascii) : bool :=
  between 9 13 c || between 28 32 c.

Definition lower_char (c : ascii) : ascii :=
  if is_upper c then ascii_of_N (code c + 32) else c.

Definition upper_char (c : ascii) : ascii :=
  if is_lower c then ascii_of_N (code c - 32) else c.

Fixpoint map_chars (f : ascii -> ascii) (s : string) : string :=
  match s with
  | EmptyString => EmptyString
  | String c r => String (f c) (map_chars f r)
  end.

(** [s.lower()] and [s.upper()]. *)
Definition lower : string -> string := map_chars lower_char.
Definition upper : string -> string := map_chars upper_char.

(** [s.startswith(p)]. *)
Fixpoint startswith (p s : string) : bool :=
  match p, s with
  | EmptyString, _ => true
  | String a p', String b s' => Ascii.eqb a b && startswith p' s'
  | String _ _, EmptyString => false
  end.

(** [needle in hay]: the needle starts at some position of the haystack. *)
Fixpoint isin (needle hay : string) : bool :=
  startswith needle hay ||
  match hay with
  | EmptyString => false
  | String _ r => isin needle r
  end.

(** Truthiness of a string: [if s:] holds for the non-empty ones. *)
Definition truthy (s : string) : bool :=
  match s with EmptyString => false | String _ _ => true end.

Fixpoint lstrip (s : string) : string :=
  match s with
  | String c r => if is_space c then lstrip r else s
  | EmptyString => EmptyString
  end.

Fixpoint rstrip (s : string) : string :=
  match s with
  | EmptyString => EmptyString
  | String c r =>
      match rstrip r with
      | EmptyString => if is_space c then EmptyString else String c EmptyString
      | r' => String c r'
      end
  end.

(** [s.strip()]. *)
Definition strip (s : string) : string := rstrip (lstrip s).

(** [s.split(sep)] for a one-character separator: always at least one
    field, empty fields kept. *)
Fixpoint split (sep : ascii) (s : string) : list string :=
  match s with
  | EmptyString => [EmptyString]
  | String c r =>
      if Ascii.eqb c sep then EmptyString :: split sep r
      else match split sep r with
           | f :: fs => String c f :: fs
           | [] => [String c EmptyString]
           end
  end.

(** [s[:n]]. *)
Fixpoint take (n : nat) (s : string) : string :=
  match n, s with
  | S k, String c r => String c (take k r)
  | _, _ => EmptyString
  end.

(** [sep.join(xs)]. *)
Fixpoint join (sep : string) (xs : list string) : string :=
  match xs with
  | [] => EmptyString
  | [x] => x
  | x :: r => x +:+ sep +:+ join sep r
  end.

End PyStr.

Import PyStr.

Definition TAB : ascii := ascii_of_N 9.
Definition NL : string := String (ascii_of_N 10) EmptyString.

(** ** The supported diseases (lines 24-47) *)

Definition disease_name_to_ordo_uri : list (string * string) :=
  [ ("Cystic Fibrosis", "http://www.orpha.net/ORDO/Orphanet_586");
    ("Huntington's Disease", "http://www.orpha.net/ORDO/Orphanet_418");
    ("Duchenne Muscular Dystrophy", "http://www.orpha.net/ORDO/Orphanet_683");
    ("Spinal Muscular Atrophy", "http://www.orpha.net/ORDO/Orphanet_84");
    ("Hemophilia A", "http://www.orpha.net/ORDO/Orphanet_448");
    ("Hemophilia B", "http://www.orpha.net/ORDO/Orphanet_447");
    ("Gaucher Disease", "http://www.orpha.net/ORDO/Orphanet_355");
    ("Pompe Disease", "http://www.orpha.net/ORDO/Orphanet_365");
    ("Neurofibromatosis type 1", "http://www.orpha.net/ORDO/Orphanet_636");
    ("Prader-Willi Syndrome", "http://www.orpha.net/ORDO/Orphanet_739");
    ("Angelman Syndrome", "http://www.orpha.net/ORDO/Orphanet_526");
    ("Rett Syndrome", "http://www.orpha.net/ORDO/Orphanet_802");
    ("Fragile X Syndrome", "http://www.orpha.net/ORDO/Orphanet_908");
    ("Phenylketonuria", "http://www.orpha.net/ORDO/Orphanet_716");
    ("Alpha-1 Antitrypsin Deficiency", "http://www.orpha.net/ORDO/Orphanet_60");
    ("Marfan Syndrome", "http://www.orpha.net/ORDO/Orphanet_284");
    ("Ehlers-Danlos Syndrome, Hypermobile Type",
       "http://www.orpha.net/ORDO/Orphanet_98253");
    ("Sickle Cell Anemia", "http://www.orpha.net/ORDO/Orphanet_232");
    ("Thalassemia Major", "http://www.orpha.net/ORDO/Orphanet_821");
    ("Crigler-Najjar Syndrome Type 1", "http://www.orpha.net/ORDO/Orphanet_792") ].

(** [list(disease_name_to_ordo_uri.keys())]: the keys in insertion order. *)
Definition DISEASE_LIST : list string := map fst disease_name_to_ordo_uri.

Definition disease_list_display : string := join ", " DISEASE_LIST.

(** [disease_name_to_ordo_uri.get(d)]. *)
Fixpoint assoc_get (k : string) (tbl : list (string * string)) : option string :=
  match tbl with
  | [] => None
  | (k', v) :: r => if String.eqb k' k then Some v else assoc_get k r
  end.

(** ** Disease extraction (lines 93-111) *)

(** The [for d in DISEASE_LIST] loop: the first name whose lower-case form
    occurs in the lower-cased query. *)
Fixpoint first_named (query_lower : string) (ds : list string) : option string :=
  match ds with
  | [] => None
  | d :: r => if isin (lower d) query_lower then Some d
              else first_named query_lower r
  end.

(** The loose synonyms, in the order of the [if] statements. *)
Definition loose_synonyms (query_lower : string) : option string :=
  if isin "huntington" query_lower then Some "Huntington's Disease"
  else if isin "sma" query_lower || isin "spinal muscular atrophy" query_lower
       then Some "Spinal Muscular Atrophy"
  else if isin "nf1" query_lower then Some "Neurofibromatosis type 1"
  else if isin "aatd" query_lower || isin "alpha-1 antitrypsin" query_lower
       then Some "Alpha-1 Antitrypsin Deficiency"
  else if isin "fxs" query_lower || isin "fragile x" query_lower
       then Some "Fragile X Syndrome"
  else if isin "pku" query_lower || isin "phenylketonuria" query_lower
       then Some "Phenylketonuria"
  else None.

Definition extract_disease_from_query (query : string) : option string :=
  let query_lower := lower query in
  match first_named query_lower DISEASE_LIST with
  | Some d => Some d
  | None => loose_synonyms query_lower
  end.

(** ** Exceptions *)

(** A raised object: its class, [str(e)], and whether the class derives
    from [Exception].  KeyboardInterrupt, SystemExit and the other classes
    that derive from BaseException alone have [exc_is_Exception = false]. *)
Record py_exception := {
  exc_class : string;
  exc_str : string;
  exc_is_Exception : bool
}.

Inductive py_result (A : Type) : Type :=
| Ok (a : A)
| Raise (e : py_exception).
Arguments Ok {A} a.
Arguments Raise {A} e.

(** Sequencing: the first exception raised aborts what follows. *)
#[global] Instance py_result_bind : MBind py_result := λ A B k m,
  match m with
  | Ok a => k a
  | Raise e => Raise e
  end.

Definition DQ : string := String (ascii_of_N 34) EmptyString.

Definition TypeError_concat_none : py_exception :=
  {| exc_class := "TypeError";
     exc_str := "can only concatenate str (not " +:+ DQ +:+ "NoneType" +:+ DQ
                +:+ ") to str";
     exc_is_Exception := true |}.
Definition KeyError (k : string) : py_exception :=
  {| exc_class := "KeyError"; exc_str := "'" +:+ k +:+ "'";
     exc_is_Exception := true |}.
Definition ValueError (msg : string) : py_exception :=
  {| exc_class := "ValueError"; exc_str := msg; exc_is_Exception := true |}.
Definition IndexError (msg : string) : py_exception :=
  {| exc_class := "IndexError"; exc_str := msg; exc_is_Exception := true |}.

(** [a + b] where [b] may be [None]. *)
Definition str_add (a : string) (b : option string) : py_result string :=
  match b with
  | Some b' => Ok (a +:+ b')
  | None => Raise TypeError_concat_none
  end.

(** ** The regular expressions of the gene/MIM extractor (lines 116, 119) *)

Module Re.

Definition head (s : string) : option ascii :=
  match s with String c _ => Some c | EmptyString => None end.

Definition word_at (c : option ascii) : bool :=
  match c with Some a => is_word a | None => false end.

(** [\b]: exactly one of the two neighbours is a word character; the ends
    of the string count as non-word. *)
Definition at_boundary (prev next : option ascii) : bool :=
  xorb (word_at prev) (word_at next).

(** [\d{n}\b]. *)
Fixpoint match_digits (n : nat) (prev : option ascii) (s : string) : option string :=
  match n with
  | O => if at_boundary prev (head s) then Some EmptyString else None
  | S k =>
      match s with
      | String c r =>
          if is_digit c then String c <$> match_digits k (Some c) r else None
      | EmptyString => None
      end
  end.

(** [\b\d{6}\b] tried at one position; [prev] is the character before it. *)
Definition match_mim (prev : option ascii) (s : string) : option string :=
  if at_boundary prev (head s) then match_digits 6 prev s else None.

(** [[A-Z0-9]{need,}\b] under IGNORECASE: greedy, giving characters back
    until a boundary is found. *)
Fixpoint match_alnums (need : nat) (prev : option ascii) (s : string) : option string :=
  let stop :=
    if Nat.eqb need 0 && at_boundary prev (head s) then Some EmptyString else None in
  match s with
  | String c r =>
      if is_alnum c then
        match match_alnums (pred need) (Some c) r with
        | Some m => Some (String c m)
        | None => stop
        end
      else stop
  | EmptyString => stop
  end.

(** [\b[A-Z][A-Z0-9]{2,}\b] under IGNORECASE, tried at one position. *)
Definition match_symbol (prev : option ascii) (s : string) : option string :=
  if at_boundary prev (head s) then
    match s with
    | String c r =>
        if is_alpha c then String c <$> match_alnums 2 (Some c) r else None
    | EmptyString => None
    end
  else None.

(** [re.findall]: leftmost matches, not overlapping.  [skip] counts the
    characters of the last match still to be passed over. *)
Fixpoint findall_from (m : option ascii -> string -> option string)
    (skip : nat) (prev : option ascii) (s : string) : list string :=
  match s with
  | EmptyString => []
  | String c r =>
      match skip with
      | S k => findall_from m k (Some c) r
      | O =>
          match m prev s with
          | Some t => t :: findall_from m (String.length t - 1) (Some c) r
          | None => findall_from m 0 (Some c) r
          end
      end
  end.

Definition findall (m : option ascii -> string -> option string) (s : string)
  : list string := findall_from m 0 None s.

End Re.

(** ** The gene table *)

Record gene_info := {
  mim_number : string;
  mim_entry_type : string;
  entrez_gene_id : option string;
  approved_gene_symbol : option string
}.

(** [k in d]. *)
Definition has_key {V} (d : gmap string V) (k : string) : bool :=
  match d !! k with Some _ => true | None => false end.

(** Lines 66-73 and the record of lines 75-80 and 82-87: what one line of
    mim2gene.txt contributes, [None] for a comment or a short line. *)
Definition parse_line (line : string) : option gene_info :=
  if startswith "#" line then None
  else
    match split TAB (strip line) with
    | p0 :: p1 :: p2 :: p3 :: _ =>
        Some {| mim_number := p0; mim_entry_type := p1;
                entrez_gene_id := if truthy p2 then Some p2 else None;
                approved_gene_symbol := if truthy p3 then Some p3 else None |}
    | _ => None
    end.

(** Lines 74-87: the symbol key is always written, the Entrez key only
    when it is not a key yet. *)
Definition store (rec : gene_info) (mim_gene_data : gmap string gene_info)
  : gmap string gene_info :=
  let d1 := match approved_gene_symbol rec with
            | Some s => <[upper s := rec]> mim_gene_data
            | None => mim_gene_data
            end in
  match entrez_gene_id rec with
  | Some e => if has_key d1 e then d1 else <[e := rec]> d1
  | None => d1
  end.

(** One iteration of the loop over the lines (lines 65-87). *)
Definition add_line (mim_gene_data : gmap string gene_info) (line : string)
  : gmap string gene_info :=
  match parse_line line with
  | Some rec => store rec mim_gene_data
  | None => mim_gene_data
  end.

(** The gene part of [load_resources]: the file is its list of lines. *)
Definition load_mim_gene_data (lines : list string) : gmap string gene_info :=
  fold_left add_line lines ∅.

(** ** Gene/MIM extraction (lines 113-122) *)

Fixpoint first_mim (mim_gene_data : gmap string gene_info) (ms : list string)
  : option string :=
  match ms with
  | [] => None
  | m :: r => if has_key mim_gene_data m then Some m else first_mim mim_gene_data r
  end.

Fixpoint first_symbol (mim_gene_data : gmap string gene_info) (ms : list string)
  : option string :=
  match ms with
  | [] => None
  | m :: r => if has_key mim_gene_data (upper m) then Some (upper m)
              else first_symbol mim_gene_data r
  end.

Definition extract_gene_or_mim_from_query
    (mim_gene_data : gmap string gene_info) (query : string) : option string :=
  match first_mim mim_gene_data (Re.findall Re.match_mim query) with
  | Some m => Some m
  | None => first_symbol mim_gene_data (Re.findall Re.match_symbol query)
  end.

(** ** The two context look-ups (lines 124-151) *)

Definition KG_NOT_FOUND : string :=
  "No specific rare disease definitional data found in knowledge graph.".

Definition MIM_NOT_FOUND : string :=
  "No specific gene or MIM data found in mim2gene.txt.".

(** [d.get(k, dflt)]. *)
Definition get_or (d : gmap string string) (k dflt : string) : string :=
  default dflt (d !! k).

(** The f-string of lines 131-137. *)
Definition kg_block (kg_data : gmap string string) : string :=
  "Disease Name: " +:+ get_or kg_data "comment" (get_or kg_data "label" "N/A") +:+ NL +:+
  "URI: " +:+ get_or kg_data "uri" "N/A" +:+ NL +:+
  "Description: " +:+ get_or kg_data "comment" "N/A" +:+ NL +:+
  "DB Xref: " +:+ get_or kg_data "dbXref" "N/A" +:+ NL +:+
  "Parent Class: " +:+ get_or kg_data "parentLabel" "N/A".

(** Truthiness of a dict: [if kg_data:] holds for the non-empty ones. *)
Definition dict_truthy (d : gmap string string) : bool :=
  negb (bool_decide (d = ∅)).

Definition get_blazegraph_context
    (kg_definitional_data : gmap string (gmap string string)) (query : string)
  : string :=
  match extract_disease_from_query query with
  | None => KG_NOT_FOUND
  | Some disease =>
      if negb (truthy disease) then KG_NOT_FOUND
      else
        let ordo_uri := assoc_get disease disease_name_to_ordo_uri in
        match ordo_uri ≫= (λ u, kg_definitional_data !! u) with
        | Some kg_data =>
            if dict_truthy kg_data then kg_block kg_data else KG_NOT_FOUND
        | None => KG_NOT_FOUND
        end
  end.

(** The concatenation of lines 145-150, left to right; every record of the
    table has the four keys, so the ['N/A'] defaults are never used, and a
    field that holds [None] makes [+] raise. *)
Definition mim_block (gene_info : gene_info) : py_result string :=
  s1 ← str_add "MIM Number: " (Some (mim_number gene_info));
  s2 ← str_add (s1 +:+ NL +:+ "MIM Entry Type: ") (Some (mim_entry_type gene_info));
  s3 ← str_add (s2 +:+ NL +:+ "Entrez Gene ID: ") (entrez_gene_id gene_info);
  str_add (s3 +:+ NL +:+ "Approved Gene Symbol: ") (approved_gene_symbol gene_info).

(** A record of the table is a dict of four keys, so [if gene_info:] holds
    exactly when the look-up found one. *)
Definition get_mim_gene_context
    (mim_gene_data : gmap string gene_info) (query : string) : py_result string :=
  match extract_gene_or_mim_from_query mim_gene_data query with
  | Some identifier =>
      if truthy identifier then
        match mim_gene_data !! identifier with
        | Some gene_info => mim_block gene_info
        | None => Ok MIM_NOT_FOUND
        end
      else Ok MIM_NOT_FOUND
  | None => Ok MIM_NOT_FOUND
  end.

(** ** The prompt (lines 155-174) *)

(** The fixed instructions; the en dash of "2–3" is kept as the bytes of
    its UTF-8 encoding. *)
Definition prompt_instructions : string :=
  "You are a helpful assistant specialized in rare diseases. " +:+
  "You only answer questions about the following diseases: " +:+
  disease_list_display +:+ ". " +:+
  "If asked about anything else, reply: " +:+
  "'Sorry, I can only answer questions about these 20 rare diseases: " +:+
  disease_list_display +:+ ".'" +:+ NL +:+ NL +:+
  "For supported questions:" +:+ NL +:+
  "- Start with a 2–3 sentence summary (TL;DR)." +:+ NL +:+
  "- Follow with a comprehensive, structured answer using clear headings, bullet points, and explanations." +:+ NL +:+
  "- Do not cite PubMed IDs (PMIDs) in your answer. The actual PMIDs will be shown separately in the Sources section." +:+ NL +:+
  "- If you do not know the answer from the provided context, say so and do not make up information." +:+ NL +:+ NL.

Definition prompt_template : string :=
  prompt_instructions +:+
  "Context from Scientific Abstracts:" +:+ NL +:+
  "{context}" +:+ NL +:+ NL +:+
  "Structured Knowledge Graph Context (from Blazegraph):" +:+ NL +:+
  "{blazegraph_context}" +:+ NL +:+ NL +:+
  "Gene and MIM Context (from mim2gene.txt):" +:+ NL +:+
  "{mim_gene_context}" +:+ NL +:+ NL +:+
  "Question: {question}" +:+ NL +:+
  "Answer:" +:+ NL.

(** [str.format] with keyword arguments, which [PromptTemplate.format]
    applies to an f-string template: text is copied, a doubled brace is one
    brace, and [{name}] is replaced by the argument of that name, which is
    inserted as it is and never scanned again.  Field names are read up to
    the closing brace; conversions and format specifications do not occur
    in this template and are not modelled. *)
Module Fmt.

Inductive mode :=
| Text                      (* copying literal text *)
| Open                      (* just after an opening brace *)
| Field (name : string)     (* inside a replacement field *)
| Close.                    (* just after a closing brace in text *)

Definition LB : ascii := ascii_of_N 123.
Definition RB : ascii := ascii_of_N 125.

Definition substitute (kwargs : list (string * string)) (name : string)
    (rest : py_result string) : py_result string :=
  match name with
  | EmptyString =>
      Raise (IndexError "Replacement index 0 out of range for positional args tuple")
  | _ =>
      match assoc_get name kwargs with
      | Some v => r ← rest; Ok (v +:+ r)
      | None => Raise (KeyError name)
      end
  end.

Fixpoint run (kwargs : list (string * string)) (m : mode) (t : string)
  : py_result string :=
  match t with
  | EmptyString =>
      match m with
      | Text => Ok EmptyString
      | Open => Raise (ValueError "Single '{' encountered in format string")
      | Field _ => Raise (ValueError "expected '}' before end of string")
      | Close => Raise (ValueError "Single '}' encountered in format string")
      end
  | String c r =>
      match m with
      | Text =>
          if Ascii.eqb c LB then run kwargs Open r
          else if Ascii.eqb c RB then run kwargs Close r
          else s ← run kwargs Text r; Ok (String c s)
      | Open =>
          if Ascii.eqb c LB then s ← run kwargs Text r; Ok (String LB s)
          else if Ascii.eqb c RB then substitute kwargs EmptyString (run kwargs Text r)
          else run kwargs (Field (String c EmptyString)) r
      | Field name =>
          if Ascii.eqb c RB then substitute kwargs name (run kwargs Text r)
          else if Ascii.eqb c LB
               then Raise (ValueError "unexpected '{' in field name")
          else run kwargs (Field (name +:+ String c EmptyString)) r
      | Close =>
          if Ascii.eqb c RB then s ← run kwargs Text r; Ok (String RB s)
          else Raise (ValueError "Single '}' encountered in format string")
      end
  end.

Definition format (template : string) (kwargs : list (string * string))
  : py_result string := run kwargs Text template.

End Fmt.

(** [PROMPT.format(context=..., blazegraph_context=..., mim_gene_context=...,
    question=...)] (lines 257-262). *)
Definition PROMPT_format (context blazegraph_context mim_gene_context question : string)
  : py_result string :=
  Fmt.format prompt_template
    [ ("context", context);
      ("blazegraph_context", blazegraph_context);
      ("mim_gene_context", mim_gene_context);
      ("question", question) ].

(** ** The question/answer turn (lines 236-286) *)

Record document := {
  page_content : string;
  metadata : gmap string string
}.

(** What [llm.invoke] returns: a message with a [content] attribute, or
    some other object, of which [str] is taken. *)
Inductive llm_answer :=
| WithContent (content : string)
| Other (str_of : string).

Inductive role := user | assistant.

Record message := {
  msg_role : role;
  msg_content : string;
  msg_evidence : option (list string);
  msg_question : option string
}.

(** What a turn does to the outside, in order. *)
Inductive effect :=
| SimilaritySearch (query : string) (k : nat)
| LlmInvoke (prompt : string)
| StMarkdown (text : string)
| StExpander (label : string).

Record session := {
  history : list message;
  trace : list effect
}.

(** State that survives an exception, and a result that may be one. *)
Definition run_t (A : Type) : Type := session -> py_result A * session.

Definition ret {A} (a : A) : run_t A := fun st => (Ok a, st).

Definition seq {A B} (m : run_t A) (k : A -> run_t B) : run_t B :=
  fun st =>
    match m st with
    | (Ok a, st') => k a st'
    | (Raise e, st') => (Raise e, st')
    end.

Notation "'perform' x '<~' m 'in' k" := (seq m (fun x => k))
  (at level 10, x name, m at level 100, k at level 200).

Definition lift {A} (r : py_result A) : run_t A := fun st => (r, st).

(** [try: body except Exception as e: handler(e)]: the handler runs for
    instances of [Exception] only; anything else goes on propagating. *)
Definition try_except {A} (body : run_t A) (handler : py_exception -> run_t A)
  : run_t A :=
  fun st =>
    match body st with
    | (Ok a, st') => (Ok a, st')
    | (Raise e, st') =>
        if exc_is_Exception e then handler e st' else (Raise e, st')
    end.

Definition emit (e : effect) : run_t unit :=
  fun st => (Ok tt, {| history := history st; trace := trace st ++ [e] |}).

Definition history_append (m : message) : run_t unit :=
  fun st => (Ok tt, {| history := history st ++ [m]; trace := trace st |}).

Fixpoint for_each {A} (xs : list A) (body : A -> run_t unit) : run_t unit :=
  match xs with
  | [] => ret tt
  | x :: r => perform _ <~ body x in for_each r body
  end.

(** Lines 246-251. *)
Fixpoint evidence_of (docs : list document) : list string :=
  match docs with
  | [] => []
  | d :: r =>
      let pmid := get_or (metadata d) "pmid" EmptyString in
      let title := get_or (metadata d) "title" EmptyString in
      if truthy pmid && truthy title
      then ("- PMID: " +:+ pmid +:+ ", Title: " +:+ take 100 title +:+ "...")
             :: evidence_of r
      else evidence_of r
  end.

Definition answer_text_of (answer : llm_answer) : string :=
  match answer with
  | WithContent c => c
  | Other s => s
  end.

Section Turn.

Variable similarity_search : string -> nat -> list document.
Variable llm_invoke : string -> py_result llm_answer.
Variable kg_definitional_data : gmap string (gmap string string).
Variable mim_gene_data : gmap string gene_info.

Definition call_search (q : string) (k : nat) : run_t (list document) :=
  perform _ <~ emit (SimilaritySearch q k) in ret (similarity_search q k).

Definition call_llm (prompt : string) : run_t llm_answer :=
  perform _ <~ emit (LlmInvoke prompt) in lift (llm_invoke prompt).

(** The body of [if user_query:]. *)
Definition answer_query (user_query : string) : run_t unit :=
  perform _ <~ history_append {| msg_role := user; msg_content := user_query;
                            msg_evidence := None; msg_question := None |} in
  perform docs <~ call_search user_query 10 in
  let context := join (NL +:+ NL) (map page_content docs) in
  let evidence_list := evidence_of docs in
  let blazegraph_context := get_blazegraph_context kg_definitional_data user_query in
  perform mim_gene_context <~ lift (get_mim_gene_context mim_gene_data user_query) in
  perform prompt_input <~
     lift (PROMPT_format context blazegraph_context mim_gene_context user_query) in
  perform answer_text <~
     try_except
       (perform answer <~ call_llm prompt_input in ret (answer_text_of answer))
       (fun e => ret ("An error occurred: " +:+ exc_str e)) in
  perform _ <~ history_append {| msg_role := assistant; msg_content := answer_text;
                            msg_evidence := Some evidence_list;
                            msg_question := Some user_query |} in
  perform _ <~ emit (StMarkdown ("**Question:** " +:+ user_query)) in
  perform _ <~ emit (StMarkdown answer_text) in
  match evidence_list with
  | [] => ret tt
  | _ => perform _ <~ emit (StExpander "📚 Sources") in
         for_each evidence_list (fun e => emit (StMarkdown e))
  end.

(** [st.chat_input] gives [None] or a string; nothing happens on a falsy one. *)
Definition on_chat_input (user_query : option string) : run_t unit :=
  match user_query with
  | Some q => if truthy q then answer_query q else ret tt
  | None => ret tt
  end.

End Turn.

(** How often the chat model was called. *)
Definition invocations (tr : list effect) : nat :=
  List.length
    (List.filter (fun e => match e with LlmInvoke _ => true | _ => false end) tr).

(** ** The rest of the page (lines 194-201 and 224-233) *)

(** Lines 195-201: the two columns of the sidebar. *)
Definition sidebar_columns (diseases : list string) : list string * list string :=
  let split_idx := Nat.div (List.length diseases) 2 in
  (firstn split_idx diseases, skipn split_idx diseases).

Definition sidebar_diseases (diseases : list string) : run_t unit :=
  perform _ <~ for_each (fst (sidebar_columns diseases))
                 (fun d => emit (StMarkdown ("- " +:+ d))) in
  for_each (snd (sidebar_columns diseases))
    (fun d => emit (StMarkdown ("- " +:+ d))).

(** [m.get("question")] and [m.get("evidence")] as conditions. *)
Definition question_truthy (m : message) : bool :=
  match msg_question m with Some q => truthy q | None => false end.

Definition is_assistant (r : role) : bool :=
  match r with assistant => true | user => false end.

(** The body of the chat display loop (lines 225-233). *)
Definition display_message (m : message) : run_t unit :=
  perform _ <~
    (if is_assistant (msg_role m) && question_truthy m
     then emit (StMarkdown ("**Question:** " +:+ default EmptyString (msg_question m)))
     else ret tt) in
  perform _ <~ emit (StMarkdown (msg_content m)) in
  match msg_evidence m with
  | Some (e :: es) =>
      perform _ <~ emit (StExpander "📚 Sources") in
      for_each (e :: es) (fun e => emit (StMarkdown e))
  | _ => ret tt
  end.

(** Lines 224-233: every stored message is shown again on each run. *)
Definition display_history : run_t unit :=
  fun st => for_each (history st) display_message st.

(** ** Vocabulary of the statements *)

(** The loose synonyms of lines 99-110 as a table, in the order in which
    the code tests them. *)
Definition synonym_rules : list (string * string) :=
  [ ("huntington", "Huntington's Disease");
    ("sma", "Spinal Muscular Atrophy");
    ("spinal muscular atrophy", "Spinal Muscular Atrophy");
    ("nf1", "Neurofibromatosis type 1");
    ("aatd", "Alpha-1 Antitrypsin Deficiency");
    ("alpha-1 antitrypsin", "Alpha-1 Antitrypsin Deficiency");
    ("fxs", "Fragile X Syndrome");
    ("fragile x", "Fragile X Syndrome");
    ("pku", "Phenylketonuria");
    ("phenylketonuria", "Phenylketonuria") ].

(** The name of disease [d] occurs in the query, case-insensitively. *)
Definition names (query d : string) : bool := isin (lower d) (lower query).

(** The synonym of rule [r] occurs in the query, case-insensitively. *)
Definition abbreviates (query : string) (r : string * string) : bool :=
  isin (fst r) (lower query).

(** The query mentions disease [d]: by its name or by one of its synonyms. *)
Definition mentions (query d : string) : Prop :=
  In d DISEASE_LIST /\
  (names query d = true \/
   exists s, In (s, d) synonym_rules /\ abbreviates query (s, d) = true).

(** The first rule of a table whose synonym occurs in the query. *)
Fixpoint first_rule (query : string) (rules : list (string * string))
  : option string :=
  match rules with
  | [] => None
  | r :: rest => if abbreviates query r then Some (snd r)
                 else first_rule query rest
  end.

(** The prompt up to the question slot, once the three contexts are in. *)
Definition prompt_before_question (context blazegraph_context mim_gene_context : string)
  : string :=
  prompt_instructions +:+
  "Context from Scientific Abstracts:" +:+ NL +:+
  context +:+ NL +:+ NL +:+
  "Structured Knowledge Graph Context (from Blazegraph):" +:+ NL +:+
  blazegraph_context +:+ NL +:+ NL +:+
  "Gene and MIM Context (from mim2gene.txt):" +:+ NL +:+
  mim_gene_context +:+ NL +:+ NL.

(** *** Tokens *)

(** Every character of the string satisfies [p]. *)
Fixpoint all_chars (p : ascii -> bool) (s : string) : bool :=
  match s with
  | EmptyString => true
  | String c r => p c && all_chars p r
  end.

(** The string holds ASCII characters only.  On such strings [lower],
    [upper], [strip], [take] and the character classes of the two regular
    expressions are those of Python; statements about every string of some
    kind are made for the ASCII ones. *)
Definition is_ascii (s : string) : bool :=
  all_chars (fun c => (code c <? 128)%N) s.

(** The longest prefix of word characters, and what follows it. *)
Fixpoint span_word (s : string) : string * string :=
  match s with
  | String c r =>
      if is_word c then (String c (fst (span_word r)), snd (span_word r))
      else (EmptyString, s)
  | EmptyString => (EmptyString, EmptyString)
  end.

(** The tokens of a query: its maximal runs of word characters, in order. *)
Fixpoint words (s : string) : list string :=
  match s with
  | EmptyString => []
  | String c r =>
      if is_word c then
        if Re.word_at (Re.head r) then
          match words r with
          | w :: ws => String c w :: ws
          | [] => [String c EmptyString]
          end
        else String c EmptyString :: words r
      else words r
  end.

(** A token of exactly six digits. *)
Definition is_mim_token (w : string) : bool :=
  Nat.eqb (String.length w) 6 && all_chars is_digit w.

(** A token of a letter followed by at least two letters or digits. *)
Definition is_symbol_token (w : string) : bool :=
  match w with
  | String c r => is_alpha c && Nat.leb 2 (String.length r) && all_chars is_alnum r
  | EmptyString => false
  end.


(** The tokens the two regular expressions can select. *)
Definition mim_tokens (query : string) : list string :=
  List.filter is_mim_token (words query).

Definition symbol_tokens (query : string) : list string :=
  List.filter is_symbol_token (words query).

(** The five lines of the knowledge-graph block. *)
Definition kg_lines (name uri description xref parent : string) : string :=
  "Disease Name: " +:+ name +:+ NL +:+
  "URI: " +:+ uri +:+ NL +:+
  "Description: " +:+ description +:+ NL +:+
  "DB Xref: " +:+ xref +:+ NL +:+
  "Parent Class: " +:+ parent.

(** A line of a tab-delimited file. *)
Definition tsv_line (fields : list string) : string :=
  join (String TAB EmptyString) fields +:+ NL.

(** A string cut after a run of word characters. *)
Definition run_then (w rest : string) : Prop :=
  all_chars is_word w = true /\ Re.word_at (Re.head rest) = false.

(** The last character read after [w], starting from [prev]. *)
Fixpoint last_of (prev : option ascii) (w : string) : option ascii :=
  match w with
  | EmptyString => prev
  | String c r => last_of (Some c) r
  end.

(** What makes a one-position matcher pick exactly the tokens [tok]. *)
Record token_matcher (m : option ascii -> string -> option string)
    (tok : string -> bool) : Prop := {
  tm_nonword : forall prev c r, is_word c = false -> m prev (String c r) = None;
  tm_inside : forall prev c r, Re.word_at prev = true -> m prev (String c r) = None;
  tm_token : forall prev w rest,
      Re.word_at prev = false -> w <> EmptyString -> run_then w rest ->
      m prev (w +:+ rest) = if tok w then Some w else None
}.

(** The symbol key that a line of the file writes, if it writes one. *)
Definition symbol_key (line : string) : option string :=
  match parse_line line with
  | Some rec => upper <$> approved_gene_symbol rec
  | None => None
  end.

(** The whole prompt, once the four slots are filled. *)
Definition filled_prompt (context blazegraph_context mim_gene_context question : string)
  : string :=
  prompt_before_question context blazegraph_context mim_gene_context
  +:+ "Question: " +:+ question +:+ NL +:+ "Answer:" +:+ NL.

(** What the page shows for the sources of an answer (lines 283-286). *)
Definition sources_effects (evidence_list : list string) : list effect :=
  match evidence_list with
  | [] => []
  | _ => StExpander "📚 Sources" :: map StMarkdown evidence_list
  end.

(** The text shown when the chat model raises [e]. *)
Definition error_text (e : py_exception) : string :=
  "An error occurred: " +:+ exc_str e.

(** *** Sample data *)

(** A small gene table, as [load_resources] builds it from three lines. *)
Definition sample_table : gmap string gene_info :=
  load_mim_gene_data
    [ "# Generated from the OMIM catalogue";
      tsv_line ["306700"; "gene"; "2157"; "F8"];
      tsv_line ["113705"; "gene"; "672"; "BRCA1"];
      tsv_line ["606426"; "gene"; "112399"; "EGLN3"] ].

(** Entries of a knowledge dictionary: a full one for Hemophilia A, one
    without a description for Hemophilia B, and an empty one, stored for
    Gaucher disease. *)
Definition hemophilia_a_entry : gmap string string :=
  {[ "uri" := "http://www.orpha.net/ORDO/Orphanet_448";
     "label" := "Hemophilia A";
     "comment" := "A rare hematological disorder.";
     "dbXref" := "OMIM:306700";
     "parentLabel" := "Hemophilia" ]}.

Definition hemophilia_b_entry : gmap string string :=
  {[ "uri" := "http://www.orpha.net/ORDO/Orphanet_447";
     "label" := "Hemophilia B" ]}.

Definition sample_kg : gmap string (gmap string string) :=
  {[ "http://www.orpha.net/ORDO/Orphanet_448" := hemophilia_a_entry;
     "http://www.orpha.net/ORDO/Orphanet_447" := hemophilia_b_entry;
     "http://www.orpha.net/ORDO/Orphanet_355" := ∅ ]}.

(** Two entries of the file share the Entrez id 100. *)
Definition shared_entrez_file : list string :=
  [ tsv_line ["100001"; "gene"; "100"; "ABC"];
    tsv_line ["100002"; "gene"; "100"; "DEF"] ].

(** Two entries of the file share the symbol ABC. *)
Definition shared_symbol_file : list string :=
  [ tsv_line ["100001"; "gene"; "100"; "ABC"];
    tsv_line ["100002"; "gene"; "200"; "ABC"] ].

(** A chat model that is down, and a vector store that finds one abstract. *)
Definition failing_llm (prompt : string) : py_result llm_answer :=
  Raise {| exc_class := "APIConnectionError"; exc_str := "Connection error.";
           exc_is_Exception := true |}.

(** A model call that is interrupted from the keyboard: KeyboardInterrupt
    derives from BaseException, not from Exception. *)
Definition interrupted_llm (prompt : string) : py_result llm_answer :=
  Raise {| exc_class := "KeyboardInterrupt"; exc_str := EmptyString;
           exc_is_Exception := false |}.

Definition one_abstract (query : string) (k : nat) : list document :=
  [ {| page_content := "Hemophilia A is caused by a deficiency of factor VIII.";
       metadata := {[ "pmid" := "12345678"; "title" := "Factor VIII deficiency" ]} |} ].

Definition new_session : session := {| history := []; trace := [] |}.

(** *** Vocabulary of the further statements *)

(** A change of letter case: what [upper_char] and [lower_char] share. *)
Record case_map (f : ascii -> ascii) : Prop := {
  cm_lower : forall c, lower_char (f c) = lower_char c;
  cm_upper : forall c, upper_char (f c) = upper_char c;
  cm_word : forall c, is_word (f c) = is_word c;
  cm_digit : forall c, is_digit (f c) = is_digit c;
  cm_alpha : forall c, is_alpha (f c) = is_alpha c;
  cm_digit_fix : forall c, is_digit c = true -> f c = c
}.

(** The key [k] is the upper-cased symbol or the Entrez id of the record. *)
Definition key_of (rec : gene_info) (k : string) : Prop :=
  upper <$> approved_gene_symbol rec = Some k \/ entrez_gene_id rec = Some k.

(** The four lines of the gene block. *)
Definition mim_lines (mim type entrez symbol : string) : string :=
  "MIM Number: " +:+ mim +:+ NL +:+
  "MIM Entry Type: " +:+ type +:+ NL +:+
  "Entrez Gene ID: " +:+ entrez +:+ NL +:+
  "Approved Gene Symbol: " +:+ symbol.

(** What the display loop shows for one message. *)
Definition message_effects (m : message) : list effect :=
  (if is_assistant (msg_role m) && question_truthy m
   then [StMarkdown ("**Question:** " +:+ default EmptyString (msg_question m))]
   else [])
  ++ [StMarkdown (msg_content m)]
  ++ sources_effects (default [] (msg_evidence m)).

(** No TAB in the field. *)
Definition tab_free (s : string) : bool :=
  all_chars (fun c => negb (Ascii.eqb c TAB)) s.

(** How often the vector store was searched. *)
Definition searches (tr : list effect) : nat :=
  List.length
    (List.filter (fun e => match e with SimilaritySearch _ _ => true | _ => false end) tr).

(** What holds of every entry of the table while a file is read. *)
Definition table_wf (lines : list string) (tbl : gmap string gene_info) : Prop :=
  forall k rec, tbl !! k = Some rec ->
    truthy k = true /\ key_of rec k /\
    exists line, In line lines /\ parse_line line = Some rec.

(** The number of TABs of a string. *)
Fixpoint count_tabs (s : string) : nat :=
  match s with
  | EmptyString => 0
  | String c r => (if Ascii.eqb c TAB then 1 else 0) + count_tabs r
  end.

(** The two messages a turn can store. *)
Definition user_message (q : string) : message :=
  {| msg_role := user; msg_content := q;
     msg_evidence := None; msg_question := None |}.

Definition assistant_message (text : string) (evidence_list : list string) (q : string)
  : message :=
  {| msg_role := assistant; msg_content := text;
     msg_evidence := Some evidence_list; msg_question := Some q |}.

(** The prompt of a turn whose gene context is [mim_gene_context]. *)
Definition turn_prompt (similarity_search : string -> nat -> list document)
    (kg : gmap string (gmap string string)) (user_query mim_gene_context : string)
  : string :=
  filled_prompt
    (join (NL +:+ NL) (map page_content (similarity_search user_query 10)))
    (get_blazegraph_context kg user_query) mim_gene_context user_query.

(** The model call returned, or raised what line 269 catches. *)
Definition handled (r : py_result llm_answer) : Prop :=
  forall e, r = Raise e -> exc_is_Exception e = true.

(** The answer text of a turn: the model's answer or the error text. *)
Definition text_of (r : py_result llm_answer) : string :=
  match r with
  | Ok answer => answer_text_of answer
  | Raise e => error_text e
  end.

(** A gene table with a record that lacks its Entrez id. *)
Definition table_without_entrez : gmap string gene_info :=
  load_mim_gene_data
    [tsv_line ["100100"; "phenotype"; EmptyString; "ABDC"; "ENSG00000000001"]].

(** A chat model that answers with a message. *)
Definition answering_llm (prompt : string) : py_result llm_answer :=
  Ok (WithContent "Hemophilia A is a bleeding disorder.").

(** * Properties *)

(** ** The embedding on small inputs *)

Example extract_disease_plasma :
  extract_disease_from_query "plasma proteins" = Some "Spinal Muscular Atrophy".
Proof. vm_compute. reflexivity. Qed.

Example findall_symbol_ex :
  Re.findall Re.match_symbol
    "What is hemophilia A? abc_def F8 brca1 x12345 123456 1234567"
  = ["What"; "hemophilia"; "brca1"; "x12345"].
Proof. vm_compute. reflexivity. Qed.

Example findall_mim_ex :
  Re.findall Re.match_mim "123456 1234567 a123456 654321, 111111_ 222222"
  = ["123456"; "654321"; "222222"].
Proof. vm_compute. reflexivity. Qed.

Example words_ex :
  words "What is hemophilia A? x_1 __ 9"
  = ["What"; "is"; "hemophilia"; "A"; "x_1"; "__"; "9"].
Proof. vm_compute. reflexivity. Qed.

Example parse_line_ex :
  parse_line (tsv_line ["100640"; "gene"; "216"; "ALDH1A1"; "ENSG00000165092"])
  = Some {| mim_number := "100640"; mim_entry_type := "gene";
            entrez_gene_id := Some "216";
            approved_gene_symbol := Some "ALDH1A1" |}
  /\ parse_line (tsv_line ["100500"; "moved/removed"]) = None
  /\ parse_line (tsv_line ["100070"; "phenotype"; "100329167"]) = None.
Proof. vm_compute. repeat split. Qed.

(** A line with a symbol and an empty Entrez column stores [None] for the
    Entrez id; asking for that symbol makes the concatenation raise. *)
Example mim_context_raises_on_missing_entrez :
  get_mim_gene_context
    (load_mim_gene_data [tsv_line ["100100"; "phenotype"; EmptyString; "ABDC"]])
    "What about ABDC?"
  = Raise TypeError_concat_none.
Proof. vm_compute. reflexivity. Qed.

(** ** Strings *)

Lemma append_cons (x : ascii) (a b : string) :
  String x a +:+ b = String x (a +:+ b).
Proof. reflexivity. Qed.

Lemma append_assoc (a b c : string) : (a +:+ b) +:+ c = a +:+ b +:+ c.
Proof.
  induction a as [|x a IH]; [reflexivity|].
  rewrite !append_cons. f_equal. exact IH.
Qed.

(** ** Tokens and the two regular expressions *)

Lemma is_digit_word c : is_digit c = true -> is_word c = true.
Proof. unfold is_word, is_alnum. intros ->. now rewrite orb_true_r. Qed.

Lemma is_alnum_word c : is_alnum c = true -> is_word c = true.
Proof. unfold is_word. now intros ->. Qed.

Lemma is_alpha_word c : is_alpha c = true -> is_word c = true.
Proof. unfold is_word, is_alnum. now intros ->. Qed.

Lemma span_word_run (s : string) :
  s = fst (span_word s) +:+ snd (span_word s) /\
  run_then (fst (span_word s)) (snd (span_word s)).
Proof.
  induction s as [|c r [IH1 [IH2 IH3]]]; [now repeat split|].
  cbn [span_word]. destruct (is_word c) eqn:E; cbn [fst snd].
  - repeat split; [now rewrite append_cons, <- IH1 | | exact IH3].
    cbn [all_chars]. now rewrite E.
  - repeat split. cbn. exact E.
Qed.

Lemma words_nonword c r : is_word c = false -> words (String c r) = words r.
Proof. intros H. simpl. now rewrite H. Qed.

Lemma words_run (w rest : string) :
  w <> EmptyString -> run_then w rest -> words (w +:+ rest) = w :: words rest.
Proof.
  intros Hne [Hw Hrest]. induction w as [|c w IH]; [congruence|].
  simpl in Hw. apply andb_prop in Hw as [Hc Hw].
  rewrite append_cons. cbn [words]. rewrite Hc.
  destruct w as [|c' w].
  - change (EmptyString +:+ rest) with rest. rewrite Hrest. reflexivity.
  - assert (Hc' : is_word c' = true)
      by (cbn [all_chars] in Hw; now apply andb_prop in Hw as [? _]).
    rewrite IH by (assumption || discriminate).
    rewrite append_cons. cbn [Re.head Re.word_at]. rewrite Hc'. reflexivity.
Qed.

Lemma length_append (a b : string) :
  String.length (a +:+ b) = String.length a + String.length b.
Proof.
  induction a as [|x a IH]; [reflexivity|].
  rewrite append_cons. cbn [String.length]. now rewrite IH.
Qed.

Lemma head_nonword_not (p : ascii -> bool) (rest : string) :
  (forall c, p c = true -> is_word c = true) ->
  Re.word_at (Re.head rest) = false ->
  match rest with String c _ => p c = false | EmptyString => True end.
Proof.
  intros Hp. destruct rest as [|c r]; [trivial|]. cbn. intros Hc.
  destruct (p c) eqn:E; [|reflexivity]. apply Hp in E. congruence.
Qed.

Section Matchers.

Import Re.

Lemma match_digits_run (n : nat) : forall (w rest : string) (prev : option ascii),
  run_then w rest ->
  (n = 0 -> word_at prev = true) ->
  match_digits n prev (w +:+ rest)
  = if Nat.eqb (String.length w) n && all_chars is_digit w then Some w else None.
Proof.
  induction n as [|k IH]; intros w rest prev [Hw Hrest] Hprev.
  - specialize (Hprev eq_refl). destruct w as [|c w].
    + change (EmptyString +:+ rest) with rest. cbn [match_digits String.length Nat.eqb all_chars andb].
      unfold at_boundary. now rewrite Hprev, Hrest.
    + rewrite append_cons. cbn [all_chars] in Hw. apply andb_prop in Hw as [Hc _].
      cbn [match_digits head String.length Nat.eqb andb].
      unfold at_boundary. cbn [word_at]. now rewrite Hprev, Hc.
  - destruct w as [|c w].
    + change (EmptyString +:+ rest) with rest. cbn [String.length Nat.eqb andb].
      pose proof (head_nonword_not is_digit rest is_digit_word Hrest) as Hd.
      destruct rest as [|c r]; cbn [match_digits]; [reflexivity | now rewrite Hd].
    + rewrite append_cons. cbn [all_chars] in Hw. apply andb_prop in Hw as [Hc Hw].
      cbn [match_digits String.length Nat.eqb all_chars].
      destruct (is_digit c) eqn:Ed; [|now rewrite andb_false_r].
      rewrite IH by (try split; cbn [word_at]; auto).
      cbn [andb]. now destruct (Nat.eqb (String.length w) k && all_chars is_digit w).
Qed.

Lemma match_alnums_run : forall (w rest : string) (need : nat) (prev : option ascii),
  run_then w rest ->
  word_at prev = true ->
  match_alnums need prev (w +:+ rest)
  = if Nat.leb need (String.length w) && all_chars is_alnum w then Some w else None.
Proof.
  induction w as [|c w IH]; intros rest need prev [Hw Hrest] Hprev.
  - change (EmptyString +:+ rest) with rest. cbn [String.length all_chars].
    rewrite andb_true_r.
    assert (Hstop : (if Nat.eqb need 0 && at_boundary prev (head rest)
                     then Some EmptyString else None)
                    = if Nat.leb need 0 then Some EmptyString else None).
    { unfold at_boundary. rewrite Hprev, Hrest. cbn [xorb].
      rewrite andb_true_r. now destruct need. }
    pose proof (head_nonword_not is_alnum rest is_alnum_word Hrest) as Ha.
    destruct rest as [|c r]; cbn [match_alnums].
    + exact Hstop.
    + rewrite Ha. exact Hstop.
  - rewrite append_cons. cbn [all_chars] in Hw. apply andb_prop in Hw as [Hc Hw].
    cbn [match_alnums head String.length all_chars].
    assert (Hnb : Nat.eqb need 0 && at_boundary prev (Some c) = false).
    { unfold at_boundary. cbn [word_at]. rewrite Hprev, Hc. cbn. apply andb_false_r. }
    rewrite Hnb.
    destruct (is_alnum c) eqn:Ea; [|now rewrite andb_false_r].
    rewrite IH by (try split; cbn [word_at]; auto).
    cbn [andb].
    replace (Nat.leb need (S (String.length w)))
      with (Nat.leb (Nat.pred need) (String.length w))
      by (destruct need; reflexivity).
    now destruct (Nat.leb (Nat.pred need) (String.length w) && all_chars is_alnum w).
Qed.

Lemma match_mim_tokens : token_matcher match_mim is_mim_token.
Proof.
  split.
  - intros prev c r Hc. unfold match_mim. cbn [head match_digits].
    destruct (is_digit c) eqn:E; [apply is_digit_word in E; congruence|].
    now destruct (at_boundary prev (Some c)).
  - intros prev c r Hp. unfold match_mim, at_boundary. cbn [head word_at match_digits].
    rewrite Hp. destruct (is_word c) eqn:E; cbn [xorb]; [reflexivity|].
    destruct (is_digit c) eqn:Ed; [apply is_digit_word in Ed; congruence | reflexivity].
  - intros prev w rest Hp Hne Hrun. unfold match_mim, at_boundary.
    destruct w as [|c w]; [congruence|].
    pose proof Hrun as [Hw _]. cbn [all_chars] in Hw. apply andb_prop in Hw as [Hc _].
    rewrite append_cons at 1. cbn [head word_at]. rewrite Hp, Hc. cbn [xorb].
    rewrite match_digits_run by (auto; discriminate). reflexivity.
Qed.

Lemma match_symbol_tokens : token_matcher match_symbol is_symbol_token.
Proof.
  split.
  - intros prev c r Hc. unfold match_symbol.
    destruct (is_alpha c) eqn:E; [apply is_alpha_word in E; congruence|].
    now destruct (at_boundary prev (head (String c r))).
  - intros prev c r Hp. unfold match_symbol, at_boundary. cbn [head word_at].
    rewrite Hp. destruct (is_word c) eqn:E; cbn [xorb]; [reflexivity|].
    destruct (is_alpha c) eqn:Ed; [apply is_alpha_word in Ed; congruence | reflexivity].
  - intros prev w rest Hp Hne [Hw Hrest]. unfold match_symbol, at_boundary.
    destruct w as [|c w]; [congruence|].
    cbn [all_chars] in Hw. apply andb_prop in Hw as [Hc Hw].
    rewrite append_cons. cbn [head word_at]. rewrite Hp, Hc. cbn [xorb].
    cbn [is_symbol_token].
    destruct (is_alpha c) eqn:Ea; [|reflexivity].
    rewrite match_alnums_run by (try split; cbn [word_at]; auto).
    cbn [andb]. now destruct (Nat.leb 2 (String.length w) && all_chars is_alnum w).
Qed.

Section Findall.

Variable m : option ascii -> string -> option string.
Variable tok : string -> bool.
Hypothesis Hm : token_matcher m tok.

Lemma findall_from_inside (u : string) : forall (rest : string) (prev : option ascii),
  word_at prev = true -> all_chars is_word u = true ->
  findall_from m 0 prev (u +:+ rest) = findall_from m 0 (last_of prev u) rest.
Proof.
  induction u as [|c u IH]; intros rest prev Hp Hu; [reflexivity|].
  cbn [all_chars] in Hu. apply andb_prop in Hu as [Hc Hu].
  rewrite append_cons. cbn [findall_from last_of].
  rewrite (tm_inside _ _ Hm) by exact Hp.
  apply IH; [exact Hc | exact Hu].
Qed.

Lemma findall_from_skip (u : string) : forall (rest : string) (prev : option ascii),
  findall_from m (String.length u) prev (u +:+ rest)
  = findall_from m 0 (last_of prev u) rest.
Proof.
  induction u as [|c u IH]; intros rest prev; [reflexivity|].
  rewrite append_cons. cbn [String.length findall_from last_of]. apply IH.
Qed.

Lemma findall_from_tokens (n : nat) : forall (s : string) (prev : option ascii),
  String.length s <= n ->
  word_at prev = false \/ word_at (head s) = false ->
  findall_from m 0 prev s = List.filter tok (words s).
Proof.
  induction n as [|n IH]; intros s prev Hlen Hstart.
  - destruct s; [reflexivity | cbn in Hlen; lia].
  - destruct s as [|c r]; [reflexivity|].
    cbn [String.length] in Hlen.
    destruct (is_word c) eqn:Hc.
    + assert (Hp : word_at prev = false).
      { destruct Hstart as [H|H]; [exact H | cbn in H; congruence]. }
      destruct (span_word_run r) as [Hr Hrun].
      set (w := fst (span_word r)) in *. set (rest := snd (span_word r)) in *.
      assert (Hrun' : run_then (String c w) rest).
      { destruct Hrun as [Hw Hrest]. split; [cbn [all_chars]; now rewrite Hc | exact Hrest]. }
      assert (Hs : String c r = String c w +:+ rest) by (rewrite append_cons; now f_equal).
      assert (Hrest_len : String.length rest <= n).
      { assert (String.length r = String.length w + String.length rest)
          by (rewrite Hr at 1; apply length_append). lia. }
      assert (IHrest : forall p, findall_from m 0 p rest = List.filter tok (words rest)).
      { intros p. apply IH; [exact Hrest_len | right; apply Hrun]. }
      rewrite Hs at 2. rewrite words_run by (auto; discriminate).
      cbn [findall_from].
      rewrite Hs at 1. rewrite (tm_token _ _ Hm) by (auto; discriminate).
      cbn [List.filter]. destruct (tok (String c w)) eqn:Et.
      * f_equal. cbn [String.length].
        replace (S (String.length w) - 1) with (String.length w) by lia.
        rewrite Hr at 1. rewrite findall_from_skip. apply IHrest.
      * rewrite Hr at 1. rewrite findall_from_inside by (cbn [word_at]; auto; apply Hrun).
        apply IHrest.
    + cbn [findall_from]. rewrite (tm_nonword _ _ Hm) by exact Hc.
      rewrite words_nonword by exact Hc.
      apply IH; [lia | left; cbn; exact Hc].
Qed.

Lemma findall_tokens (s : string) : findall m s = List.filter tok (words s).
Proof.
  apply (findall_from_tokens (String.length s)); [lia | now left].
Qed.

End Findall.

End Matchers.

(** ** Prompt assembly *)

Lemma PROMPT_format_filled (context blazegraph_context mim_gene_context question : string) :
  PROMPT_format context blazegraph_context mim_gene_context question
  = Ok (filled_prompt context blazegraph_context mim_gene_context question).
Proof.
  unfold filled_prompt, prompt_before_question.
  rewrite !append_assoc. vm_compute. reflexivity.
Qed.

(** C1: for every question (and every three contexts) prompt assembly
    succeeds, and the prompt is the filled-in text before the question slot,
    then "Question: ", then the question exactly as given, then the fixed
    tail.  Braces or any other characters in the question are not
    interpreted. *)
Theorem prompt_question_verbatim :
  forall context blazegraph_context mim_gene_context question : string,
    PROMPT_format context blazegraph_context mim_gene_context question
    = Ok (prompt_before_question context blazegraph_context mim_gene_context
          +:+ "Question: " +:+ question +:+ NL +:+ "Answer:" +:+ NL).
Proof.
  intros. apply PROMPT_format_filled.
Qed.

Example prompt_question_braces :
  exists pre,
    PROMPT_format "c" "b" "m" "What is {question}? }{ {{"
    = Ok (pre +:+ "Question: What is {question}? }{ {{" +:+ NL +:+ "Answer:" +:+ NL).
Proof. eexists. apply prompt_question_verbatim. Qed.

(** ** Disease extraction *)

Section FirstHit.

Variable query : string.

Lemma first_named_skip (pre rest : list string) :
  Forall (fun d => names query d = false) pre ->
  first_named (lower query) (pre ++ rest) = first_named (lower query) rest.
Proof.
  induction 1 as [|d pre Hd _ IH]; [reflexivity|].
  simpl. unfold names in Hd. rewrite Hd. exact IH.
Qed.

Lemma first_named_sound (ds : list string) (d : string) :
  first_named (lower query) ds = Some d -> In d ds /\ names query d = true.
Proof.
  induction ds as [|d' ds IH]; simpl; [discriminate|].
  destruct (isin (lower d') (lower query)) eqn:E.
  - intros [= <-]. split; [now left | exact E].
  - intros H. destruct (IH H) as [Hin Hn]. split; [now right | exact Hn].
Qed.


Lemma first_rule_sound (rules : list (string * string)) (d : string) :
  first_rule query rules = Some d ->
  exists s, In (s, d) rules /\ abbreviates query (s, d) = true.
Proof.
  induction rules as [|[s' d'] rules IH]; simpl; [discriminate|].
  destruct (abbreviates query (s', d')) eqn:E.
  - intros [= <-]. exists s'. split; [now left | exact E].
  - intros H. destruct (IH H) as (s & Hin & Hs). exists s. split; [now right | exact Hs].
Qed.

(** The chain of [if] statements is a first-match scan of the rule table. *)
Lemma loose_synonyms_first_rule :
  loose_synonyms (lower query) = first_rule query synonym_rules.
Proof.
  unfold loose_synonyms, synonym_rules, first_rule, abbreviates. cbn [fst snd].
  repeat match goal with
         | |- context [isin ?s (lower query)] =>
             destruct (isin s (lower query)); cbn [orb]; try reflexivity
         end.
Qed.

End FirstHit.

(** Membership in one of the literal tables. *)
Ltac in_table :=
  cbv [DISEASE_LIST disease_name_to_ordo_uri synonym_rules map fst snd];
  repeat first [left; reflexivity | right].

Lemma synonym_rules_supported :
  Forall (fun r => In (snd r) DISEASE_LIST) synonym_rules.
Proof. unfold synonym_rules. repeat (constructor; [in_table|]). constructor. Qed.

(** A returned disease is one the query mentions. *)
Lemma extract_disease_sound (query d : string) :
  extract_disease_from_query query = Some d -> mentions query d.
Proof.
  unfold extract_disease_from_query. cbv zeta.
  destruct (first_named (lower query) DISEASE_LIST) as [d0|] eqn:E.
  - intros [= <-]. destruct (first_named_sound _ _ _ E) as [Hin Hn].
    split; [exact Hin | now left].
  - rewrite loose_synonyms_first_rule. intros H.
    destruct (first_rule_sound _ _ _ H) as (s & Hin & Hs).
    split.
    + exact (proj1 (List.Forall_forall _ _) synonym_rules_supported _ Hin).
    + right. exists s. split; assumption.
Qed.




(** ** Gene/MIM extraction *)

Lemma extract_gene_tokens (tbl : gmap string gene_info) (query : string) :
  extract_gene_or_mim_from_query tbl query
  = match first_mim tbl (mim_tokens query) with
    | Some m => Some m
    | None => first_symbol tbl (symbol_tokens query)
    end.
Proof.
  unfold extract_gene_or_mim_from_query, mim_tokens, symbol_tokens.
  now rewrite (findall_tokens _ _ match_mim_tokens),
              (findall_tokens _ _ match_symbol_tokens).
Qed.

Section FirstKey.

Variable tbl : gmap string gene_info.

Lemma first_mim_skip (pre rest : list string) :
  Forall (fun t => has_key tbl t = false) pre ->
  first_mim tbl (pre ++ rest) = first_mim tbl rest.
Proof.
  induction 1 as [|t pre Ht _ IH]; [reflexivity|].
  cbn [app first_mim]. now rewrite Ht.
Qed.

Lemma first_symbol_skip (pre rest : list string) :
  Forall (fun t => has_key tbl (upper t) = false) pre ->
  first_symbol tbl (pre ++ rest) = first_symbol tbl rest.
Proof.
  induction 1 as [|t pre Ht _ IH]; [reflexivity|].
  cbn [app first_symbol]. now rewrite Ht.
Qed.

Lemma first_mim_sound (ms : list string) (id : string) :
  first_mim tbl ms = Some id -> In id ms /\ has_key tbl id = true.
Proof.
  induction ms as [|m ms IH]; cbn [first_mim]; [discriminate|].
  destruct (has_key tbl m) eqn:E.
  - intros [= <-]. split; [now left | exact E].
  - intros H. destruct (IH H). split; [now right | assumption].
Qed.

Lemma first_symbol_sound (ms : list string) (id : string) :
  first_symbol tbl ms = Some id ->
  exists t, In t ms /\ id = upper t /\ has_key tbl id = true.
Proof.
  induction ms as [|m ms IH]; cbn [first_symbol]; [discriminate|].
  destruct (has_key tbl (upper m)) eqn:E.
  - intros [= <-]. exists m. repeat split; [now left | exact E].
  - intros H. destruct (IH H) as (t & Hin & Hid & Hk).
    exists t. repeat split; [now right | assumption | assumption].
Qed.

End FirstKey.

(** What extraction returns is a key of the table and comes from a token. *)
Lemma extract_gene_sound (tbl : gmap string gene_info) (query id : string) :
  extract_gene_or_mim_from_query tbl query = Some id ->
  has_key tbl id = true /\
  (In id (mim_tokens query) \/
   exists t, In t (symbol_tokens query) /\ id = upper t).
Proof.
  rewrite extract_gene_tokens.
  destruct (first_mim tbl (mim_tokens query)) as [m|] eqn:E.
  - intros [= <-]. destruct (first_mim_sound _ _ _ E). split; [assumption | now left].
  - intros H. destruct (first_symbol_sound _ _ _ H) as (t & Hin & Hid & Hk).
    split; [assumption | right; now exists t].
Qed.

Lemma extract_gene_first_none (tbl : gmap string gene_info) (query : string) :
  Forall (fun t => has_key tbl t = false) (mim_tokens query) ->
  Forall (fun t => has_key tbl (upper t) = false) (symbol_tokens query) ->
  extract_gene_or_mim_from_query tbl query = None.
Proof.
  intros Hm Hs. rewrite extract_gene_tokens.
  rewrite <- (app_nil_r (mim_tokens query)), first_mim_skip by exact Hm.
  rewrite <- (app_nil_r (symbol_tokens query)), first_symbol_skip by exact Hs.
  reflexivity.
Qed.




(** ** The gene/MIM context *)

Lemma mim_token_truthy (t : string) : is_mim_token t = true -> truthy t = true.
Proof. destruct t; [discriminate | reflexivity]. Qed.

Lemma symbol_token_upper_truthy (t : string) :
  is_symbol_token t = true -> truthy (upper t) = true.
Proof. destruct t; [discriminate | reflexivity]. Qed.

Lemma extract_gene_truthy (tbl : gmap string gene_info) (query id : string) :
  extract_gene_or_mim_from_query tbl query = Some id -> truthy id = true.
Proof.
  intros H. destruct (extract_gene_sound _ _ _ H) as [_ [Hin | (t & Hin & ->)]].
  - apply mim_token_truthy. exact (proj2 (proj1 (filter_In _ _ _) Hin)).
  - apply symbol_token_upper_truthy. exact (proj2 (proj1 (filter_In _ _ _) Hin)).
Qed.

(** The four-field block is never the sentinel: it raises or starts with
    another letter. *)
Lemma mim_block_not_sentinel (info : gene_info) : mim_block info <> Ok MIM_NOT_FOUND.
Proof.
  destruct info as [n ty [e|] [s|]]; cbv [mim_block str_add mbind py_result_bind
    mim_number mim_entry_type entrez_gene_id approved_gene_symbol];
    rewrite ?append_assoc, ?append_cons; try discriminate.
Qed.

(** C9: an identifier that extraction returns is a key of the gene table,
    so the look-up inside [get_mim_gene_context] finds its record and the
    function answers with that record's block (or with the exception the
    block raises), never with the sentinel; the sentinel is returned only
    when extraction found nothing. *)
Theorem extracted_identifier_is_key (tbl : gmap string gene_info) (query : string) :
  (forall id,
      extract_gene_or_mim_from_query tbl query = Some id ->
      has_key tbl id = true /\
      exists info, tbl !! id = Some info /\
                   get_mim_gene_context tbl query = mim_block info)
  /\ (get_mim_gene_context tbl query = Ok MIM_NOT_FOUND ->
      extract_gene_or_mim_from_query tbl query = None).
Proof.
  assert (Hhit : forall id,
      extract_gene_or_mim_from_query tbl query = Some id ->
      has_key tbl id = true /\
      exists info, tbl !! id = Some info /\
                   get_mim_gene_context tbl query = mim_block info).
  { intros id H. pose proof (proj1 (extract_gene_sound _ _ _ H)) as Hk.
    split; [exact Hk|].
    unfold get_mim_gene_context. rewrite H, (extract_gene_truthy _ _ _ H).
    unfold has_key in Hk. destruct (tbl !! id) as [info|]; [|discriminate].
    now exists info. }
  split; [exact Hhit|].
  intros Hctx.
  destruct (extract_gene_or_mim_from_query tbl query) as [id|] eqn:E; [|reflexivity].
  destruct (Hhit id eq_refl) as [_ (info & _ & Hb)].
  rewrite Hb in Hctx. now apply mim_block_not_sentinel in Hctx.
Qed.

(** C9, witness: "BRCA1" is extracted, is a key, and its block is returned. *)
Lemma extracted_identifier_is_key_witness :
  extract_gene_or_mim_from_query sample_table "does brca1 matter" = Some "BRCA1" /\
  has_key sample_table "BRCA1" = true /\
  exists info, sample_table !! "BRCA1" = Some info /\
               get_mim_gene_context sample_table "does brca1 matter" = mim_block info.
Proof.
  split; [vm_compute; reflexivity|].
  apply (proj1 (extracted_identifier_is_key sample_table "does brca1 matter") "BRCA1").
  vm_compute. reflexivity.
Defined.

(** ** The worked example *)

(** C8: in "What is hemophilia A?" the disease found is "Hemophilia A";
    and when no token of the query, upper-cased, is a key of the gene table,
    no gene or MIM identifier is found and the gene context is the
    sentinel. *)
Theorem hemophilia_a_example (tbl : gmap string gene_info) :
  (forall t, In t (words "What is hemophilia A?") -> has_key tbl (upper t) = false) ->
  extract_disease_from_query "What is hemophilia A?" = Some "Hemophilia A" /\
  extract_gene_or_mim_from_query tbl "What is hemophilia A?" = None /\
  get_mim_gene_context tbl "What is hemophilia A?" = Ok MIM_NOT_FOUND.
Proof.
  intros Hno.
  assert (Hg : extract_gene_or_mim_from_query tbl "What is hemophilia A?" = None).
  { apply (extract_gene_first_none tbl).
    - replace (mim_tokens "What is hemophilia A?") with (@nil string)
        by (vm_compute; reflexivity).
      constructor.
    - replace (symbol_tokens "What is hemophilia A?") with ["What"; "hemophilia"]
        by (vm_compute; reflexivity).
      constructor; [|constructor; [|constructor]].
      + apply (Hno "What"). vm_compute. tauto.
      + apply (Hno "hemophilia"). vm_compute. tauto. }
  split; [vm_compute; reflexivity|]. split; [exact Hg|].
  unfold get_mim_gene_context. now rewrite Hg.
Qed.

(** C8, witness: the sample table has none of WHAT, IS, HEMOPHILIA, A as
    a key. *)
Lemma hemophilia_a_example_witness :
  extract_disease_from_query "What is hemophilia A?" = Some "Hemophilia A" /\
  extract_gene_or_mim_from_query sample_table "What is hemophilia A?" = None /\
  get_mim_gene_context sample_table "What is hemophilia A?" = Ok MIM_NOT_FOUND.
Proof.
  apply (hemophilia_a_example sample_table).
  intros t Ht. vm_compute in Ht.
  repeat (destruct Ht as [<-|Ht]; [vm_compute; reflexivity|]). destruct Ht.
Defined.

(** ** The knowledge-graph context *)

Lemma supported_disease_uri (d : string) :
  In d DISEASE_LIST ->
  truthy d = true /\ exists uri, assoc_get d disease_name_to_ordo_uri = Some uri.
Proof.
  intros H. cbv [DISEASE_LIST map fst disease_name_to_ordo_uri In] in H.
  repeat (destruct H as [<-|H]; [split; [reflexivity | eexists; reflexivity]|]).
  destruct H.
Qed.

Lemma kg_block_lines (kg_data : gmap string string) :
  kg_block kg_data
  = kg_lines (get_or kg_data "comment" (get_or kg_data "label" "N/A"))
             (get_or kg_data "uri" "N/A")
             (get_or kg_data "comment" "N/A")
             (get_or kg_data "dbXref" "N/A")
             (get_or kg_data "parentLabel" "N/A").
Proof. reflexivity. Qed.

Lemma kg_block_not_sentinel (kg_data : gmap string string) :
  kg_block kg_data <> KG_NOT_FOUND.
Proof. unfold kg_block. rewrite ?append_cons. discriminate. Qed.

Lemma dict_truthy_spec (d : gmap string string) :
  dict_truthy d = true <-> d <> ∅.
Proof.
  unfold dict_truthy. rewrite negb_true_iff, bool_decide_eq_false. reflexivity.
Qed.

(** C5, as the code has it: the sentinel is returned when no disease is
    extracted, when the disease's URI has no entry in the knowledge
    dictionary, and also when the entry is there but empty; a non-empty
    entry gives the five-field block, which is never the sentinel. *)
Theorem blazegraph_context_cases
    (kg : gmap string (gmap string string)) (query : string) :
  (extract_disease_from_query query = None ->
   get_blazegraph_context kg query = KG_NOT_FOUND)
  /\ (forall d, extract_disease_from_query query = Some d ->
      exists uri,
        assoc_get d disease_name_to_ordo_uri = Some uri /\
        (kg !! uri = None -> get_blazegraph_context kg query = KG_NOT_FOUND) /\
        (kg !! uri = Some ∅ -> get_blazegraph_context kg query = KG_NOT_FOUND) /\
        (forall kg_data, kg !! uri = Some kg_data -> kg_data <> ∅ ->
           get_blazegraph_context kg query = kg_block kg_data /\
           kg_block kg_data <> KG_NOT_FOUND)).
Proof.
  unfold get_blazegraph_context. split.
  - now intros ->.
  - intros d Hd. rewrite Hd.
    destruct (supported_disease_uri d (proj1 (extract_disease_sound _ _ Hd)))
      as [Ht [uri Hu]].
    exists uri. rewrite Ht, Hu. cbn [negb mbind option_bind].
    split; [reflexivity|]. split; [|split].
    + now intros ->.
    + now intros ->.
    + intros kg_data -> Hne. split; [|apply kg_block_not_sentinel].
      apply dict_truthy_spec in Hne. now rewrite Hne.
Qed.

(** C5, witness: the full entry gives its block. *)
Lemma blazegraph_context_cases_witness :
  sample_kg !! "http://www.orpha.net/ORDO/Orphanet_448" = Some hemophilia_a_entry /\
  get_blazegraph_context sample_kg "What is hemophilia A?" = kg_block hemophilia_a_entry.
Proof.
  assert (Hd : extract_disease_from_query "What is hemophilia A?" = Some "Hemophilia A")
    by (vm_compute; reflexivity).
  assert (He : sample_kg !! "http://www.orpha.net/ORDO/Orphanet_448"
               = Some hemophilia_a_entry) by (vm_compute; reflexivity).
  destruct (proj2 (blazegraph_context_cases sample_kg "What is hemophilia A?")
              "Hemophilia A" Hd) as (uri & Hu & _ & _ & Hblock).
  injection Hu as <-.
  split; [exact He|].
  apply (Hblock hemophilia_a_entry He).
  intros H. apply (f_equal (fun m : gmap string string => m !! "uri")) in H.
  vm_compute in H. discriminate H.
Defined.

(** C5, as stated, fails: the URI of Gaucher disease has an entry, yet the
    sentinel is returned and not the block built from that entry, because
    the entry is empty. *)
Lemma blazegraph_context_empty_entry :
  extract_disease_from_query "Tell me about Gaucher disease" = Some "Gaucher Disease" /\
  assoc_get "Gaucher Disease" disease_name_to_ordo_uri
    = Some "http://www.orpha.net/ORDO/Orphanet_355" /\
  sample_kg !! "http://www.orpha.net/ORDO/Orphanet_355" = Some ∅ /\
  get_blazegraph_context sample_kg "Tell me about Gaucher disease" = KG_NOT_FOUND /\
  get_blazegraph_context sample_kg "Tell me about Gaucher disease" <> kg_block ∅.
Proof.
  repeat split; try (vm_compute; reflexivity).
  vm_compute. discriminate.
Qed.

(** ** Misses *)

(** C6: a miss never raises.  When gene/MIM extraction finds nothing,
    [get_mim_gene_context] returns its sentinel normally; when disease
    extraction finds nothing, [get_blazegraph_context] returns its
    sentinel. *)
Theorem lookup_miss_gives_sentinel
    (kg : gmap string (gmap string string)) (tbl : gmap string gene_info)
    (query : string) :
  (extract_gene_or_mim_from_query tbl query = None ->
   get_mim_gene_context tbl query = Ok MIM_NOT_FOUND)
  /\ (extract_disease_from_query query = None ->
      get_blazegraph_context kg query = KG_NOT_FOUND).
Proof.
  unfold get_mim_gene_context, get_blazegraph_context.
  split; now intros ->.
Qed.

(** C6, witness: a query that names no disease and no gene. *)
Lemma lookup_miss_gives_sentinel_witness :
  get_mim_gene_context sample_table "How is the weather?" = Ok MIM_NOT_FOUND /\
  get_blazegraph_context sample_kg "How is the weather?" = KG_NOT_FOUND.
Proof.
  destruct (lookup_miss_gives_sentinel sample_kg sample_table "How is the weather?")
    as [Hg Hd].
  split; [apply Hg | apply Hd]; vm_compute; reflexivity.
Defined.

(** ** The Disease Name line *)

(** C10: when the entry has a comment, both the Disease Name line and the
    Description line carry the comment, whatever the label is; the label
    fills the Disease Name line only when there is no comment, and then the
    Description line reads N/A. *)
Theorem disease_name_line_is_comment (kg_data : gmap string string) :
  (forall c, kg_data !! "comment" = Some c ->
     kg_block kg_data
     = kg_lines c (get_or kg_data "uri" "N/A") c
                (get_or kg_data "dbXref" "N/A") (get_or kg_data "parentLabel" "N/A"))
  /\ (kg_data !! "comment" = None ->
      kg_block kg_data
      = kg_lines (get_or kg_data "label" "N/A") (get_or kg_data "uri" "N/A") "N/A"
                 (get_or kg_data "dbXref" "N/A") (get_or kg_data "parentLabel" "N/A")).
Proof.
  rewrite kg_block_lines.
  split; [intros c Hc | intros Hc]; unfold get_or; rewrite Hc; reflexivity.
Qed.

(** C10, witness: an entry with a comment and an entry without one. *)
Lemma disease_name_line_is_comment_witness :
  kg_block hemophilia_a_entry
  = kg_lines "A rare hematological disorder."
             "http://www.orpha.net/ORDO/Orphanet_448"
             "A rare hematological disorder."
             "OMIM:306700" "Hemophilia"
  /\ kg_block hemophilia_b_entry
  = kg_lines "Hemophilia B" "http://www.orpha.net/ORDO/Orphanet_447" "N/A" "N/A" "N/A".
Proof.
  split.
  - rewrite (proj1 (disease_name_line_is_comment hemophilia_a_entry)
               "A rare hematological disorder.") by (vm_compute; reflexivity).
    vm_compute. reflexivity.
  - rewrite (proj2 (disease_name_line_is_comment hemophilia_b_entry))
      by (vm_compute; reflexivity).
    vm_compute. reflexivity.
Defined.

(** ** The gene table *)

Section Store.

Variable rec : gene_info.
Variable tbl : gmap string gene_info.

Lemma has_key_true {V} (d : gmap string V) (k : string) (v : V) :
  d !! k = Some v -> has_key d k = true.
Proof. unfold has_key. now intros ->. Qed.

Lemma has_key_false {V} (d : gmap string V) (k : string) :
  has_key d k = false -> d !! k = None.
Proof. unfold has_key. now destruct (d !! k). Qed.

(** Right after a line with both fields is stored, both keys hold its
    record, provided the Entrez id was not a key before. *)
Lemma store_both (s e : string) :
  approved_gene_symbol rec = Some s ->
  entrez_gene_id rec = Some e ->
  has_key tbl e = false ->
  store rec tbl !! upper s = Some rec /\ store rec tbl !! e = Some rec.
Proof.
  intros Hs He Hfree. apply has_key_false in Hfree.
  unfold store. rewrite Hs, He.
  destruct (decide (upper s = e)) as [<-|Hne].
  - rewrite (has_key_true _ _ rec) by apply lookup_insert_eq.
    split; apply lookup_insert_eq.
  - assert (Hd1 : <[upper s := rec]> tbl !! e = None)
      by (rewrite lookup_insert_ne by exact Hne; exact Hfree).
    unfold has_key. rewrite Hd1. split.
    + rewrite lookup_insert_ne by congruence. apply lookup_insert_eq.
    + apply lookup_insert_eq.
Qed.

(** Storing a record leaves a key alone unless it is the record's symbol
    key. *)
Lemma store_keeps (k : string) (v : gene_info) :
  tbl !! k = Some v ->
  upper <$> approved_gene_symbol rec <> Some k ->
  store rec tbl !! k = Some v.
Proof.
  intros Hk Hsym. unfold store.
  set (d1 := match approved_gene_symbol rec with
             | Some s => <[upper s := rec]> tbl
             | None => tbl
             end).
  assert (Hd1 : d1 !! k = Some v).
  { subst d1. destruct (approved_gene_symbol rec) as [s|]; [|exact Hk].
    rewrite lookup_insert_ne; [exact Hk|]. cbn in Hsym. congruence. }
  destruct (entrez_gene_id rec) as [e|]; [|exact Hd1].
  destruct (has_key d1 e) eqn:E; [exact Hd1|].
  rewrite lookup_insert_ne; [exact Hd1|].
  intros ->. apply has_key_false in E. congruence.
Qed.

End Store.

Lemma add_line_keeps (tbl : gmap string gene_info) (line k : string) (v : gene_info) :
  tbl !! k = Some v -> symbol_key line <> Some k -> add_line tbl line !! k = Some v.
Proof.
  unfold add_line, symbol_key. destruct (parse_line line) as [rec|]; [|auto].
  apply store_keeps.
Qed.

Lemma load_keeps (lines : list string) : forall (tbl : gmap string gene_info) k v,
  tbl !! k = Some v ->
  Forall (fun l => symbol_key l <> Some k) lines ->
  fold_left add_line lines tbl !! k = Some v.
Proof.
  induction lines as [|l lines IH]; intros tbl k v Hk Hall; [exact Hk|].
  cbn [fold_left]. inversion Hall as [|? ? Hl Hrest]; subst.
  apply IH; [apply add_line_keeps; assumption | assumption].
Qed.

(** C7, as the code has it: the symbol key is overwritten by every line
    that carries the same upper-cased symbol, and the Entrez key is written
    only if it is not a key yet.  So for a line with both fields, whose
    Entrez id is not a key when the line is read and whose two keys are not
    the symbol key of any later line, both keys hold the record of that
    line once the table is built. *)
Theorem symbol_and_entrez_same_record
    (before after : list string) (line : string) (rec : gene_info) (s e : string) :
  parse_line line = Some rec ->
  approved_gene_symbol rec = Some s ->
  entrez_gene_id rec = Some e ->
  has_key (load_mim_gene_data before) e = false ->
  Forall (fun l => symbol_key l <> Some (upper s) /\ symbol_key l <> Some e) after ->
  load_mim_gene_data (before ++ line :: after) !! upper s = Some rec /\
  load_mim_gene_data (before ++ line :: after) !! e = Some rec.
Proof.
  intros Hp Hs He Hfree Hafter.
  unfold load_mim_gene_data in *. rewrite fold_left_app. cbn [fold_left].
  set (t0 := fold_left add_line before ∅) in *.
  assert (H1 : add_line t0 line !! upper s = Some rec /\ add_line t0 line !! e = Some rec).
  { unfold add_line. rewrite Hp. now apply store_both. }
  destruct H1 as [Hsym Hent].
  split; apply load_keeps; try assumption.
  - eapply List.Forall_impl; [|exact Hafter]. now intros l [? _].
  - eapply List.Forall_impl; [|exact Hafter]. now intros l [_ ?].
Qed.

(** C7, witness: the BRCA1 line of the sample file. *)
Lemma symbol_and_entrez_same_record_witness :
  let rec := {| mim_number := "113705"; mim_entry_type := "gene";
                entrez_gene_id := Some "672"; approved_gene_symbol := Some "BRCA1" |} in
  sample_table !! "BRCA1" = Some rec /\ sample_table !! "672" = Some rec.
Proof.
  apply (symbol_and_entrez_same_record
           [ "# Generated from the OMIM catalogue";
             tsv_line ["306700"; "gene"; "2157"; "F8"] ]
           [ tsv_line ["606426"; "gene"; "112399"; "EGLN3"] ]
           (tsv_line ["113705"; "gene"; "672"; "BRCA1"])
           _ "BRCA1" "672").
  - vm_compute. reflexivity.
  - reflexivity.
  - reflexivity.
  - vm_compute. reflexivity.
  - constructor; [|constructor]. split; vm_compute; discriminate.
Defined.

(** C7, as stated, fails.  When two lines share an Entrez id, the second
    line's symbol key holds the second record and its Entrez key the first;
    when two lines share a symbol, the first line's symbol key holds the
    second record and its Entrez key the first. *)
Lemma shared_keys_differ :
  (exists rec2,
     parse_line (tsv_line ["100002"; "gene"; "100"; "DEF"]) = Some rec2 /\
     approved_gene_symbol rec2 = Some "DEF" /\ entrez_gene_id rec2 = Some "100" /\
     load_mim_gene_data shared_entrez_file !! "DEF" = Some rec2 /\
     load_mim_gene_data shared_entrez_file !! "100" <> Some rec2)
  /\
  (exists rec1,
     parse_line (tsv_line ["100001"; "gene"; "100"; "ABC"]) = Some rec1 /\
     approved_gene_symbol rec1 = Some "ABC" /\ entrez_gene_id rec1 = Some "100" /\
     load_mim_gene_data shared_symbol_file !! "100" = Some rec1 /\
     load_mim_gene_data shared_symbol_file !! "ABC" <> Some rec1).
Proof.
  split.
  - exists {| mim_number := "100002"; mim_entry_type := "gene";
              entrez_gene_id := Some "100"; approved_gene_symbol := Some "DEF" |}.
    repeat split; try (vm_compute; reflexivity). vm_compute. discriminate.
  - exists {| mim_number := "100001"; mim_entry_type := "gene";
              entrez_gene_id := Some "100"; approved_gene_symbol := Some "ABC" |}.
    repeat split; try (vm_compute; reflexivity). vm_compute. discriminate.
Qed.

(** ** The question/answer turn *)

Lemma for_each_markdown (xs : list string) : forall st : session,
  for_each xs (fun e => emit (StMarkdown e)) st
  = (Ok tt, {| history := history st; trace := trace st ++ map StMarkdown xs |}).
Proof.
  induction xs as [|x xs IH]; intros st.
  - cbn. rewrite app_nil_r. now destruct st.
  - cbn [for_each]. unfold seq at 1. unfold emit at 1. rewrite IH.
    cbn. now rewrite <- app_assoc.
Qed.

Lemma invocations_app (a b : list effect) :
  invocations (a ++ b) = invocations a + invocations b.
Proof. unfold invocations. now rewrite List.filter_app, List.length_app. Qed.

Lemma invocations_sources (ev : list string) : invocations (sources_effects ev) = 0.
Proof.
  unfold sources_effects. destruct ev as [|x ev]; [reflexivity|].
  generalize (x :: ev). intros l. unfold invocations. cbn [List.filter].
  induction l as [|y l IH]; [reflexivity | exact IH].
Qed.

Section TurnFacts.

Variable similarity_search : string -> nat -> list document.
Variable llm_invoke : string -> py_result llm_answer.
Variable kg : gmap string (gmap string string).
Variable tbl : gmap string gene_info.

(** C4, as the code has it: when the call of the chat model raises an
    instance of [Exception], the answer text of the turn is
    "An error occurred: " followed by the error's description; that text is
    stored in the history and rendered, and the model is called exactly once
    in the turn.  (What is not an instance of [Exception] is not caught by
    line 269.) *)
Theorem llm_failure_shows_error
    (user_query mim_gene_context : string) (e : py_exception) (st : session) :
  let docs := similarity_search user_query 10 in
  let prompt :=
    filled_prompt (join (NL +:+ NL) (map page_content docs))
                  (get_blazegraph_context kg user_query)
                  mim_gene_context user_query in
  get_mim_gene_context tbl user_query = Ok mim_gene_context ->
  llm_invoke prompt = Raise e ->
  exc_is_Exception e = true ->
  exists shown,
    answer_query similarity_search llm_invoke kg tbl user_query st
    = (Ok tt,
       {| history := history st ++
            [ {| msg_role := user; msg_content := user_query;
                 msg_evidence := None; msg_question := None |};
              {| msg_role := assistant; msg_content := error_text e;
                 msg_evidence := Some (evidence_of docs);
                 msg_question := Some user_query |} ];
          trace := trace st ++ shown |})
    /\ shown = [ SimilaritySearch user_query 10; LlmInvoke prompt;
                 StMarkdown ("**Question:** " +:+ user_query);
                 StMarkdown (error_text e) ]
               ++ sources_effects (evidence_of docs)
    /\ invocations shown = 1.
Proof.
  intros docs prompt Hmim Hllm He.
  eexists. split; [|split; [reflexivity|]].
  - unfold answer_query, call_search, call_llm.
    unfold seq, history_append, emit, ret, lift, try_except.
    cbn [history trace fst snd]. rewrite Hmim, PROMPT_format_filled.
    fold docs. fold prompt. rewrite Hllm, He. cbn [history trace].
    unfold sources_effects, error_text.
    destruct (evidence_of docs) as [|x ev] eqn:Eev.
    + cbn [history trace]. rewrite <- !app_assoc. reflexivity.
    + rewrite for_each_markdown. cbn [history trace].
      rewrite <- !app_assoc. reflexivity.
  - rewrite invocations_app, invocations_sources. reflexivity.
Qed.

End TurnFacts.

(** C4, witness: the model is down while one abstract was found. *)
Lemma llm_failure_shows_error_witness :
  exists st',
    answer_query one_abstract failing_llm sample_kg sample_table
      "What is hemophilia A?" new_session = (Ok tt, st')
    /\ map msg_content (history st')
       = ["What is hemophilia A?"; "An error occurred: Connection error."]
    /\ invocations (trace st') = 1.
Proof.
  destruct (llm_failure_shows_error one_abstract failing_llm sample_kg sample_table
              "What is hemophilia A?" MIM_NOT_FOUND
              {| exc_class := "APIConnectionError"; exc_str := "Connection error.";
                 exc_is_Exception := true |}
              new_session)
    as (shown & Hrun & Hshown & Hcount).
  - vm_compute. reflexivity.
  - reflexivity.
  - reflexivity.
  - eexists. split; [exact Hrun|]. split; [reflexivity | exact Hcount].
Defined.

(** C4, as stated, fails twice.  For an instance of [Exception] the
    answer text is not the description of the error alone, it is that
    description behind a fixed prefix; and what is not an instance of
    [Exception] is not caught at all: a KeyboardInterrupt leaves the turn,
    and no answer text is stored for it. *)
Lemma llm_failure_text_has_prefix :
  (failing_llm (filled_prompt
                  "Hemophilia A is caused by a deficiency of factor VIII."
                  (kg_block hemophilia_a_entry) MIM_NOT_FOUND "What is hemophilia A?")
   = Raise {| exc_class := "APIConnectionError"; exc_str := "Connection error.";
              exc_is_Exception := true |}
   /\ map msg_content
        (history (snd (answer_query one_abstract failing_llm sample_kg sample_table
                         "What is hemophilia A?" new_session)))
      = ["What is hemophilia A?"; "An error occurred: Connection error."]
   /\ "An error occurred: Connection error." <> "Connection error.")
  /\
  (fst (answer_query one_abstract interrupted_llm sample_kg sample_table
          "What is hemophilia A?" new_session)
   = Raise {| exc_class := "KeyboardInterrupt"; exc_str := EmptyString;
              exc_is_Exception := false |}
   /\ map msg_content
        (history (snd (answer_query one_abstract interrupted_llm sample_kg
                         sample_table "What is hemophilia A?" new_session)))
      = ["What is hemophilia A?"]).
Proof.
  split.
  - split; [reflexivity|]. split; [vm_compute; reflexivity | discriminate].
  - split; vm_compute; reflexivity.
Qed.

(** * Further properties *)

(** ** Letter case *)

(** A statement about one character, checked on each of the 256. *)
Ltac each_char c :=
  destruct c as [[] [] [] [] [] [] [] []]; vm_compute; try reflexivity; try discriminate.

Lemma upper_char_case_map : case_map upper_char.
Proof. split; intros c; each_char c. Qed.

Lemma lower_char_case_map : case_map lower_char.
Proof. split; intros c; each_char c. Qed.

Lemma alpha_upper_char (c : ascii) : is_alpha c = true -> is_upper (upper_char c) = true.
Proof. each_char c. Qed.

Lemma alnum_upper_char (c : ascii) :
  is_alnum c = true -> is_upper (upper_char c) || is_digit (upper_char c) = true.
Proof. each_char c. Qed.

Lemma upper_char_idem (c : ascii) : upper_char (upper_char c) = upper_char c.
Proof. each_char c. Qed.

Lemma length_map_chars (f : ascii -> ascii) (s : string) :
  String.length (map_chars f s) = String.length s.
Proof. induction s as [|c s IH]; [reflexivity|]. cbn. now rewrite IH. Qed.

Lemma map_chars_append (f : ascii -> ascii) (a b : string) :
  map_chars f (a +:+ b) = map_chars f a +:+ map_chars f b.
Proof.
  induction a as [|c a IH]; [reflexivity|].
  rewrite append_cons. cbn [map_chars]. now rewrite append_cons, IH.
Qed.

Section CaseMap.

Variable f : ascii -> ascii.
Hypothesis Hf : case_map f.

Lemma lower_map_chars (s : string) : lower (map_chars f s) = lower s.
Proof.
  unfold lower. induction s as [|c s IH]; [reflexivity|].
  cbn [map_chars]. now rewrite (cm_lower _ Hf), IH.
Qed.

Lemma upper_map_chars (s : string) : upper (map_chars f s) = upper s.
Proof.
  unfold upper. induction s as [|c s IH]; [reflexivity|].
  cbn [map_chars]. now rewrite (cm_upper _ Hf), IH.
Qed.

Lemma head_map_chars (s : string) :
  Re.word_at (Re.head (map_chars f s)) = Re.word_at (Re.head s).
Proof. destruct s as [|c s]; [reflexivity|]. cbn. apply (cm_word _ Hf). Qed.

Lemma words_map_chars (s : string) :
  words (map_chars f s) = map (map_chars f) (words s).
Proof.
  induction s as [|c s IH]; [reflexivity|].
  cbn [map_chars words]. rewrite (cm_word _ Hf), head_map_chars, IH.
  destruct (is_word c); [|reflexivity].
  destruct (Re.word_at (Re.head s)); [|reflexivity].
  now destruct (words s).
Qed.

Lemma all_digits_fixed (w : string) :
  all_chars is_digit w = true -> map_chars f w = w.
Proof.
  induction w as [|c w IH]; [reflexivity|].
  cbn [all_chars map_chars]. intros H. apply andb_prop in H as [Hc Hw].
  now rewrite (cm_digit_fix _ Hf c Hc), IH.
Qed.

Lemma all_chars_map_digit (w : string) :
  all_chars is_digit (map_chars f w) = all_chars is_digit w.
Proof.
  induction w as [|c w IH]; [reflexivity|].
  cbn [all_chars map_chars]. now rewrite (cm_digit _ Hf), IH.
Qed.

Lemma is_alnum_map (c : ascii) : is_alnum (f c) = is_alnum c.
Proof. unfold is_alnum. now rewrite (cm_alpha _ Hf), (cm_digit _ Hf). Qed.

Lemma all_chars_map_alnum (w : string) :
  all_chars is_alnum (map_chars f w) = all_chars is_alnum w.
Proof.
  induction w as [|c w IH]; [reflexivity|].
  cbn [all_chars map_chars]. now rewrite is_alnum_map, IH.
Qed.

Lemma is_mim_token_map (w : string) :
  is_mim_token (map_chars f w) = is_mim_token w.
Proof. unfold is_mim_token. now rewrite length_map_chars, all_chars_map_digit. Qed.

Lemma is_symbol_token_map (w : string) :
  is_symbol_token (map_chars f w) = is_symbol_token w.
Proof.
  destruct w as [|c w]; [reflexivity|]. cbn [map_chars is_symbol_token].
  now rewrite (cm_alpha _ Hf), length_map_chars, all_chars_map_alnum.
Qed.

Lemma mim_tokens_map (q : string) : mim_tokens (map_chars f q) = mim_tokens q.
Proof.
  unfold mim_tokens. rewrite words_map_chars.
  induction (words q) as [|w ws IH]; [reflexivity|].
  cbn [map List.filter]. rewrite is_mim_token_map, IH.
  destruct (is_mim_token w) eqn:E; [|reflexivity].
  apply andb_prop in E as [_ E]. now rewrite (all_digits_fixed _ E).
Qed.

Lemma symbol_tokens_map (q : string) :
  symbol_tokens (map_chars f q) = map (map_chars f) (symbol_tokens q).
Proof.
  unfold symbol_tokens. rewrite words_map_chars.
  induction (words q) as [|w ws IH]; [reflexivity|].
  cbn [map List.filter]. rewrite is_symbol_token_map, IH.
  now destruct (is_symbol_token w).
Qed.

Lemma first_symbol_map (tbl : gmap string gene_info) (ms : list string) :
  first_symbol tbl (map (map_chars f) ms) = first_symbol tbl ms.
Proof.
  induction ms as [|m ms IH]; [reflexivity|].
  cbn [map first_symbol]. now rewrite upper_map_chars, IH.
Qed.

Lemma extract_disease_map (q : string) :
  extract_disease_from_query (map_chars f q) = extract_disease_from_query q.
Proof. unfold extract_disease_from_query. now rewrite lower_map_chars. Qed.

Lemma extract_gene_map (tbl : gmap string gene_info) (q : string) :
  extract_gene_or_mim_from_query tbl (map_chars f q)
  = extract_gene_or_mim_from_query tbl q.
Proof.
  rewrite !extract_gene_tokens, mim_tokens_map, symbol_tokens_map.
  now rewrite first_symbol_map.
Qed.

End CaseMap.


(** So do the two context look-ups. *)
Corollary contexts_ignore_case
    (kg : gmap string (gmap string string)) (tbl : gmap string gene_info)
    (query : string) :
  get_blazegraph_context kg (upper query) = get_blazegraph_context kg query /\
  get_blazegraph_context kg (lower query) = get_blazegraph_context kg query /\
  get_mim_gene_context tbl (upper query) = get_mim_gene_context tbl query /\
  get_mim_gene_context tbl (lower query) = get_mim_gene_context tbl query.
Proof.
  unfold get_blazegraph_context, get_mim_gene_context.
  rewrite (extract_disease_map _ upper_char_case_map),
          (extract_disease_map _ lower_char_case_map),
          (extract_gene_map _ upper_char_case_map),
          (extract_gene_map _ lower_char_case_map).
  repeat split.
Qed.

(** ** Text around a query *)

Lemma startswith_append (n h b : string) :
  startswith n h = true -> startswith n (h +:+ b) = true.
Proof.
  revert h. induction n as [|x n IH]; intros h; [reflexivity|].
  destruct h as [|y h]; [discriminate|].
  rewrite append_cons. cbn [startswith]. intros H.
  apply andb_prop in H as [Hxy Hn]. now rewrite Hxy, IH.
Qed.

Lemma isin_append_r (n h b : string) :
  isin n h = true -> isin n (h +:+ b) = true.
Proof.
  induction h as [|y h IH].
  - cbn [isin]. rewrite orb_false_r. intros H.
    destruct n; [|discriminate]. now destruct b.
  - rewrite append_cons. cbn [isin]. intros H.
    apply orb_prop in H as [H|H].
    + rewrite <- append_cons, (startswith_append _ _ _ H). reflexivity.
    + rewrite (IH H). apply orb_true_r.
Qed.

Lemma isin_append_l (n a h : string) :
  isin n h = true -> isin n (a +:+ h) = true.
Proof.
  intros H. induction a as [|x a IH]; [exact H|].
  rewrite append_cons. cbn [isin]. rewrite IH. apply orb_true_r.
Qed.

Lemma isin_embedded (n a h b : string) :
  isin n h = true -> isin n (a +:+ h +:+ b) = true.
Proof. intros H. now apply isin_append_l, isin_append_r. Qed.

Section Monotone.

Variables ql ql' : string.
Hypothesis Hmono : forall n, isin n ql = true -> isin n ql' = true.

Lemma first_named_mono (ds : list string) :
  first_named ql ds <> None -> first_named ql' ds <> None.
Proof.
  induction ds as [|d ds IH]; cbn [first_named]; [auto|].
  destruct (isin (lower d) ql) eqn:E.
  - now rewrite (Hmono _ E).
  - intros H. destruct (isin (lower d) ql'); [discriminate | auto].
Qed.

Lemma loose_synonyms_mono :
  loose_synonyms ql <> None -> loose_synonyms ql' <> None.
Proof.
  unfold loose_synonyms.
  repeat match goal with
         | |- context [isin ?s ql] =>
             let E := fresh "E" in
             destruct (isin s ql) eqn:E;
             [rewrite (Hmono _ E); cbn [orb]; rewrite ?orb_true_r;
              repeat match goal with |- context [if ?b then _ else _] =>
                       destruct b end; discriminate
             | cbn [orb] ]
         end.
  congruence.
Qed.

End Monotone.

(** X2: text put before or after a query never loses a disease: when
    extraction finds a disease in a query, it also finds one in every longer
    query that contains it. *)
Theorem extract_disease_embedded (before query after : string) :
  extract_disease_from_query query <> None ->
  extract_disease_from_query (before +:+ query +:+ after) <> None.
Proof.
  unfold extract_disease_from_query. cbv zeta.
  assert (Hmono : forall n, isin n (lower query) = true ->
                            isin n (lower (before +:+ query +:+ after)) = true).
  { intros n H. unfold lower. rewrite !map_chars_append. now apply isin_embedded. }
  destruct (first_named (lower query) DISEASE_LIST) as [d|] eqn:E.
  - intros _.
    destruct (first_named (lower (before +:+ query +:+ after)) DISEASE_LIST) eqn:E';
      [discriminate|].
    exfalso. apply (first_named_mono _ _ Hmono DISEASE_LIST); [|exact E'].
    rewrite E. discriminate.
  - intros H.
    destruct (first_named (lower (before +:+ query +:+ after)) DISEASE_LIST);
      [discriminate|].
    now apply (loose_synonyms_mono _ _ Hmono).
Qed.

Lemma extract_disease_embedded_witness :
  extract_disease_from_query
    ("My son has " +:+ "fragile x" +:+ ", what now?") <> None.
Proof.
  apply (extract_disease_embedded "My son has " "fragile x" ", what now?").
  vm_compute. discriminate.
Defined.

(** ** Synonyms that are full names *)

Lemma first_named_none_forall (ql : string) (ds : list string) :
  first_named ql ds = None -> Forall (fun d => isin (lower d) ql = false) ds.
Proof.
  induction ds as [|d ds IH]; cbn [first_named]; [constructor|].
  destruct (isin (lower d) ql) eqn:E; [discriminate|].
  intros H. constructor; [exact E | exact (IH H)].
Qed.

(** X3: two of the loose synonyms are the lower-cased full names of their
    diseases, and the scan of the names comes first; so whenever the result
    is left to the synonyms, "spinal muscular atrophy" and "phenylketonuria"
    do not occur in the query, and the result is decided by the eight
    shorter synonyms alone. *)
Theorem full_name_synonyms_never_decide (query : string) :
  (forall d, In d DISEASE_LIST -> names query d = false) ->
  isin "spinal muscular atrophy" (lower query) = false /\
  isin "phenylketonuria" (lower query) = false /\
  extract_disease_from_query query
  = first_rule query
      [ ("huntington", "Huntington's Disease");
        ("sma", "Spinal Muscular Atrophy");
        ("nf1", "Neurofibromatosis type 1");
        ("aatd", "Alpha-1 Antitrypsin Deficiency");
        ("alpha-1 antitrypsin", "Alpha-1 Antitrypsin Deficiency");
        ("fxs", "Fragile X Syndrome");
        ("fragile x", "Fragile X Syndrome");
        ("pku", "Phenylketonuria") ].
Proof.
  intros Hno.
  assert (Hsma : isin "spinal muscular atrophy" (lower query) = false)
    by (apply (Hno "Spinal Muscular Atrophy"); in_table).
  assert (Hpku : isin "phenylketonuria" (lower query) = false)
    by (apply (Hno "Phenylketonuria"); in_table).
  split; [exact Hsma|]. split; [exact Hpku|].
  unfold extract_disease_from_query. cbv zeta.
  assert (Hall : Forall (fun d => names query d = false) DISEASE_LIST)
    by (apply List.Forall_forall; exact Hno).
  rewrite <- (app_nil_r DISEASE_LIST), first_named_skip by exact Hall.
  cbn [first_named]. unfold loose_synonyms, first_rule, abbreviates. cbn [fst snd].
  rewrite Hsma, Hpku, !orb_false_r.
  repeat match goal with
         | |- context [isin ?s (lower query)] =>
             destruct (isin s (lower query)); cbn [orb]; try reflexivity
         end.
Qed.

Lemma full_name_synonyms_never_decide_witness :
  extract_disease_from_query "Is PKU screened at birth?" = Some "Phenylketonuria".
Proof.
  etransitivity.
  - apply (proj2 (proj2 (full_name_synonyms_never_decide "Is PKU screened at birth?"
                           ltac:(intros d Hd;
                                 cbv [DISEASE_LIST map fst disease_name_to_ordo_uri In] in Hd;
                                 repeat (destruct Hd as [<-|Hd]; [vm_compute; reflexivity|]);
                                 destruct Hd)))).
  - vm_compute. reflexivity.
Defined.

(** ** The form of an identifier *)

Lemma upper_idem (s : string) : upper (upper s) = upper s.
Proof.
  unfold upper. induction s as [|c s IH]; [reflexivity|].
  cbn [map_chars]. now rewrite upper_char_idem, IH.
Qed.

Lemma all_alnum_upper (s : string) :
  all_chars is_alnum s = true ->
  all_chars (fun c => is_upper c || is_digit c) (upper s) = true.
Proof.
  unfold upper. induction s as [|c s IH]; [reflexivity|].
  cbn [all_chars map_chars]. intros H. apply andb_prop in H as [Hc Hs].
  now rewrite (alnum_upper_char c Hc), IH.
Qed.

Lemma all_digit_upper_or_digit (s : string) :
  all_chars is_digit s = true ->
  all_chars (fun c => is_upper c || is_digit c) s = true.
Proof.
  induction s as [|c s IH]; [reflexivity|].
  cbn [all_chars]. intros H. apply andb_prop in H as [Hc Hs].
  now rewrite Hc, orb_true_r, IH.
Qed.

(** X4: an identifier that gene/MIM extraction returns is in one fixed
    form whatever the query looks like: at least three characters, upper-case
    letters and digits only, and unchanged by [upper]. *)
Theorem extracted_identifier_form
    (tbl : gmap string gene_info) (query id : string) :
  extract_gene_or_mim_from_query tbl query = Some id ->
  3 <= String.length id /\
  all_chars (fun c => is_upper c || is_digit c) id = true /\
  upper id = id.
Proof.
  intros H. destruct (extract_gene_sound _ _ _ H) as [_ [Hin | (t & Hin & ->)]].
  - apply filter_In in Hin as [_ Ht]. unfold is_mim_token in Ht.
    apply andb_prop in Ht as [Hlen Hd]. apply Nat.eqb_eq in Hlen.
    split; [lia|]. split; [now apply all_digit_upper_or_digit|].
    apply (all_digits_fixed _ upper_char_case_map _ Hd).
  - apply filter_In in Hin as [_ Ht]. destruct t as [|c t]; [discriminate|].
    cbn [is_symbol_token] in Ht.
    apply andb_prop in Ht as [Ht Hall]. apply andb_prop in Ht as [Hc Hlen].
    apply Nat.leb_le in Hlen.
    split; [|split].
    + unfold upper. rewrite length_map_chars. cbn [String.length]. lia.
    + apply all_alnum_upper. cbn [all_chars]. unfold is_alnum at 1.
      now rewrite Hc, Hall.
    + apply upper_idem.
Qed.

Lemma extracted_identifier_form_witness :
  3 <= String.length "BRCA1" /\
  all_chars (fun c => is_upper c || is_digit c) "BRCA1" = true /\
  upper "BRCA1" = "BRCA1".
Proof.
  apply (extracted_identifier_form sample_table "does brca1 matter" "BRCA1").
  vm_compute. reflexivity.
Defined.

(** ** What the loader keeps *)

Lemma fold_left_invariant {A B} (f : A -> B -> A) (P : A -> Prop) (l : list B) :
  forall a, P a -> (forall a b, P a -> In b l -> P (f a b)) -> P (fold_left f l a).
Proof.
  induction l as [|b l IH]; intros a Ha Hstep; [exact Ha|].
  cbn [fold_left]. apply IH.
  - apply Hstep; [exact Ha | now left].
  - intros a' b' Ha' Hb'. apply Hstep; [exact Ha' | now right].
Qed.

Lemma parse_line_fields (line : string) (rec : gene_info) :
  parse_line line = Some rec ->
  (forall s, approved_gene_symbol rec = Some s -> truthy s = true) /\
  (forall e, entrez_gene_id rec = Some e -> truthy e = true).
Proof.
  unfold parse_line. destruct (startswith "#" line); [discriminate|].
  destruct (split TAB (strip line)) as [|p0 [|p1 [|p2 [|p3 ps]]]]; try discriminate.
  intros [= <-]. cbn. split.
  - intros s. destruct (truthy p3) eqn:E; [now intros [= <-] | discriminate].
  - intros e. destruct (truthy p2) eqn:E; [now intros [= <-] | discriminate].
Qed.

Lemma truthy_upper (s : string) : truthy s = true -> truthy (upper s) = true.
Proof. now destruct s. Qed.

Lemma store_wf (lines : list string) (line : string) (rec : gene_info)
    (tbl : gmap string gene_info) :
  In line lines -> parse_line line = Some rec ->
  table_wf lines tbl -> table_wf lines (store rec tbl).
Proof.
  intros Hin Hp Hwf. destruct (parse_line_fields _ _ Hp) as [Hs He].
  assert (Hnew : forall k, key_of rec k ->
            truthy k = true /\ key_of rec k /\
            exists line, In line lines /\ parse_line line = Some rec).
  { intros k Hk. split; [|split; [exact Hk | now exists line]].
    destruct Hk as [Hk|Hk].
    - destruct (approved_gene_symbol rec) as [s|]; [|discriminate].
      injection Hk as <-. now apply truthy_upper, Hs.
    - now apply He. }
  assert (Hd1 : table_wf lines
                  match approved_gene_symbol rec with
                  | Some s => <[upper s := rec]> tbl
                  | None => tbl
                  end).
  { destruct (approved_gene_symbol rec) as [s|] eqn:Es; [|exact Hwf].
    intros k r. rewrite lookup_insert. case_decide as Hk.
    - intros [= <-]. subst k. apply Hnew. left. now rewrite Es.
    - apply Hwf. }
  unfold store. destruct (entrez_gene_id rec) as [e|] eqn:Ee; [|exact Hd1].
  destruct (has_key _ e); [exact Hd1|].
  intros k r. rewrite lookup_insert. case_decide as Hk.
  - intros [= <-]. subst k. apply Hnew. now right.
  - apply Hd1.
Qed.

(** X5: in the table built from a file, every key is a non-empty string,
    the record it holds was read from a line of the file, and the key is that
    record's upper-cased gene symbol or its Entrez id.  So a MIM number is
    a key only where it is also the symbol or the Entrez id of its line. *)
Theorem loaded_table_entries (lines : list string) (k : string) (rec : gene_info) :
  load_mim_gene_data lines !! k = Some rec ->
  truthy k = true /\
  (upper <$> approved_gene_symbol rec = Some k \/ entrez_gene_id rec = Some k) /\
  exists line, In line lines /\ parse_line line = Some rec.
Proof.
  revert k rec. change (table_wf lines (load_mim_gene_data lines)).
  unfold load_mim_gene_data. apply fold_left_invariant.
  - intros k rec. now rewrite lookup_empty.
  - intros tbl line Hwf Hin. unfold add_line.
    destruct (parse_line line) as [rec|] eqn:Hp; [|exact Hwf].
    now apply (store_wf lines line).
Qed.

Lemma loaded_table_entries_witness :
  truthy "672" = true /\
  (upper <$> Some "BRCA1" = Some "672" \/ Some "672" = Some "672") /\
  exists line,
    In line [ "# Generated from the OMIM catalogue";
              tsv_line ["306700"; "gene"; "2157"; "F8"];
              tsv_line ["113705"; "gene"; "672"; "BRCA1"];
              tsv_line ["606426"; "gene"; "112399"; "EGLN3"] ] /\
    parse_line line
    = Some {| mim_number := "113705"; mim_entry_type := "gene";
              entrez_gene_id := Some "672"; approved_gene_symbol := Some "BRCA1" |}.
Proof.
  apply (loaded_table_entries
           [ "# Generated from the OMIM catalogue";
             tsv_line ["306700"; "gene"; "2157"; "F8"];
             tsv_line ["113705"; "gene"; "672"; "BRCA1"];
             tsv_line ["606426"; "gene"; "112399"; "EGLN3"] ]
           "672"
           {| mim_number := "113705"; mim_entry_type := "gene";
              entrez_gene_id := Some "672"; approved_gene_symbol := Some "BRCA1" |}).
  vm_compute. reflexivity.
Defined.

Lemma store_has_key (rec : gene_info) (tbl : gmap string gene_info) (k : string) :
  has_key tbl k = true -> has_key (store rec tbl) k = true.
Proof.
  intros Hk.
  assert (Hins : forall k' (t : gmap string gene_info),
             has_key t k = true -> has_key (<[k' := rec]> t) k = true).
  { intros k' t Ht. unfold has_key in *. rewrite lookup_insert.
    case_decide; [reflexivity | exact Ht]. }
  unfold store.
  set (d1 := match approved_gene_symbol rec with
             | Some s => <[upper s := rec]> tbl
             | None => tbl
             end).
  assert (Hd1 : has_key d1 k = true)
    by (subst d1; destruct (approved_gene_symbol rec); auto).
  destruct (entrez_gene_id rec) as [e|]; [|exact Hd1].
  destruct (has_key d1 e); auto.
Qed.

(** X6: reading more lines never removes a key: a key of the table built
    from the first lines of a file is a key of the table built from the
    whole file. *)
Theorem loaded_keys_stay (before after : list string) (k : string) :
  has_key (load_mim_gene_data before) k = true ->
  has_key (load_mim_gene_data (before ++ after)) k = true.
Proof.
  unfold load_mim_gene_data. rewrite fold_left_app.
  generalize (fold_left add_line before ∅). intros tbl Hk.
  apply (fold_left_invariant add_line (fun t => has_key t k = true)); [exact Hk|].
  intros t line Ht _. unfold add_line.
  destruct (parse_line line); [now apply store_has_key | exact Ht].
Qed.

Lemma loaded_keys_stay_witness :
  has_key (load_mim_gene_data
             ([tsv_line ["306700"; "gene"; "2157"; "F8"]]
              ++ [tsv_line ["300841"; "phenotype"; "2157"; "F8"]])) "2157" = true.
Proof.
  apply (loaded_keys_stay [tsv_line ["306700"; "gene"; "2157"; "F8"]]
           [tsv_line ["300841"; "phenotype"; "2157"; "F8"]] "2157").
  vm_compute. reflexivity.
Defined.

Lemma store_symbol (rec : gene_info) (tbl : gmap string gene_info) (s : string) :
  approved_gene_symbol rec = Some s -> store rec tbl !! upper s = Some rec.
Proof.
  intros Hs. unfold store. rewrite Hs.
  destruct (entrez_gene_id rec) as [e|]; [|apply lookup_insert_eq].
  destruct (has_key _ e); [apply lookup_insert_eq|].
  rewrite lookup_insert. case_decide; [reflexivity | apply lookup_insert_eq].
Qed.

(** X7: for gene symbols the last line wins: the symbol key holds the
    record of the last line of the file that carries that symbol (in any
    letter case), whatever came before. *)
Theorem symbol_key_last_line
    (before after : list string) (line k : string) (rec : gene_info) :
  parse_line line = Some rec ->
  symbol_key line = Some k ->
  Forall (fun l => symbol_key l <> Some k) after ->
  load_mim_gene_data (before ++ line :: after) !! k = Some rec.
Proof.
  intros Hp Hk Hafter. unfold load_mim_gene_data.
  rewrite fold_left_app. cbn [fold_left].
  apply load_keeps; [|exact Hafter].
  unfold add_line. rewrite Hp. unfold symbol_key in Hk. rewrite Hp in Hk.
  destruct (approved_gene_symbol rec) as [s|] eqn:Es; [|discriminate].
  injection Hk as <-. now apply store_symbol.
Qed.

Lemma symbol_key_last_line_witness :
  load_mim_gene_data shared_symbol_file !! "ABC"
  = Some {| mim_number := "100002"; mim_entry_type := "gene";
            entrez_gene_id := Some "200"; approved_gene_symbol := Some "ABC" |}.
Proof.
  apply (symbol_key_last_line [tsv_line ["100001"; "gene"; "100"; "ABC"]] []
           (tsv_line ["100002"; "gene"; "200"; "ABC"]) "ABC").
  - vm_compute. reflexivity.
  - vm_compute. reflexivity.
  - constructor.
Defined.

(** ** Reading one line *)

Lemma rstrip_newline (s : string) :
  rstrip s = s -> rstrip (s +:+ NL) = s.
Proof.
  induction s as [|c s IH]; [reflexivity|].
  rewrite append_cons. cbn [rstrip].
  destruct (rstrip s) as [|c' s'] eqn:E.
  - destruct (is_space c); [discriminate|]. intros [= <-].
    now rewrite (IH eq_refl).
  - intros [= Hs]. rewrite (IH Hs). now rewrite <- Hs.
Qed.

Lemma rstrip_append (a b : string) :
  rstrip b <> EmptyString -> rstrip (a +:+ b) = a +:+ rstrip b.
Proof.
  intros Hb. induction a as [|c a IH]; [reflexivity|].
  rewrite !append_cons. cbn [rstrip]. rewrite IH.
  destruct (a +:+ rstrip b) eqn:E; [|reflexivity].
  destruct a; [|discriminate]. change (rstrip b = EmptyString) in E. congruence.
Qed.

Lemma split_no_sep (s : string) :
  tab_free s = true -> split TAB s = [s].
Proof.
  induction s as [|c s IH]; [reflexivity|].
  unfold tab_free. cbn [all_chars split]. intros H.
  apply andb_prop in H as [Hc Hs]. apply negb_true_iff in Hc.
  now rewrite Hc, (IH Hs).
Qed.

Lemma split_field (a rest : string) :
  tab_free a = true ->
  split TAB (a +:+ String TAB rest) = a :: split TAB rest.
Proof.
  induction a as [|c a IH]; intros H.
  - cbn [append split]. reflexivity.
  - unfold tab_free in H. cbn [all_chars] in H.
    apply andb_prop in H as [Hc Ha]. apply negb_true_iff in Hc.
    rewrite append_cons. cbn [split]. now rewrite Hc, (IH Ha).
Qed.

Lemma lstrip_clean (s : string) c r :
  s = String c r -> is_space c = false -> forall t, lstrip (s +:+ t) = s +:+ t.
Proof. intros -> Hc t. rewrite append_cons. cbn [lstrip]. now rewrite Hc. Qed.

(** The fields of a line joined by TAB, without the line end. *)
Lemma tsv_line_4 (a b c d : string) :
  tsv_line [a; b; c; d]
  = a +:+ String TAB (b +:+ String TAB (c +:+ String TAB (d +:+ NL))).
Proof.
  unfold tsv_line. cbn [join]. rewrite !append_assoc. reflexivity.
Qed.

(** X8: a line of four ASCII columns is read back as written.  When the
    columns are ASCII and none contains a TAB, the first column starts with
    a character that is neither white space nor the comment sign, and the
    symbol column is not empty and does not end in white space, [parse_line]
    returns the four columns, with [None] for an empty Entrez column. *)
Theorem parse_line_reads_columns (mim type entrez symbol : string) (c : ascii) (r : string) :
  is_ascii mim = true -> is_ascii type = true ->
  is_ascii entrez = true -> is_ascii symbol = true ->
  mim = String c r -> is_space c = false -> Ascii.eqb c "#" = false ->
  tab_free mim = true -> tab_free type = true ->
  tab_free entrez = true -> tab_free symbol = true ->
  symbol <> EmptyString -> rstrip symbol = symbol ->
  parse_line (tsv_line [mim; type; entrez; symbol])
  = Some {| mim_number := mim; mim_entry_type := type;
            entrez_gene_id := if truthy entrez then Some entrez else None;
            approved_gene_symbol := Some symbol |}.
Proof.
  intros _ _ _ _ Hm Hc Hhash Tm Tt Te Ts Hne Hr.
  rewrite tsv_line_4. unfold parse_line.
  assert (Hstart : startswith "#"
            (mim +:+ String TAB (type +:+ String TAB
               (entrez +:+ String TAB (symbol +:+ NL)))) = false).
  { rewrite Hm, append_cons. cbn [startswith].
    rewrite Ascii.eqb_sym, Hhash. reflexivity. }
  rewrite Hstart. unfold strip. rewrite (lstrip_clean mim c r Hm Hc).
  assert (Hsym : rstrip (symbol +:+ NL) = symbol) by now apply rstrip_newline.
  assert (Hrs : forall a, rstrip (a +:+ String TAB (symbol +:+ NL))
                          = a +:+ String TAB symbol).
  { intros a. change (a +:+ String TAB (symbol +:+ NL))
      with (a +:+ (String TAB EmptyString +:+ (symbol +:+ NL))).
    rewrite <- append_assoc, rstrip_append by (rewrite Hsym; exact Hne).
    rewrite Hsym, append_assoc. reflexivity. }
  replace (mim +:+ String TAB (type +:+ String TAB
             (entrez +:+ String TAB (symbol +:+ NL))))
    with ((mim +:+ String TAB (type +:+ String TAB entrez))
            +:+ String TAB (symbol +:+ NL))
    by (rewrite !append_assoc, !append_cons, !append_assoc; reflexivity).
  rewrite Hrs.
  replace ((mim +:+ String TAB (type +:+ String TAB entrez)) +:+ String TAB symbol)
    with (mim +:+ String TAB (type +:+ String TAB (entrez +:+ String TAB symbol)))
    by (rewrite !append_assoc, !append_cons, !append_assoc; reflexivity).
  rewrite !split_field, split_no_sep by assumption.
  destruct symbol; [congruence|]. reflexivity.
Qed.

Lemma parse_line_reads_columns_witness :
  parse_line (tsv_line ["306700"; "gene"; "2157"; "F8"])
  = Some {| mim_number := "306700"; mim_entry_type := "gene";
            entrez_gene_id := Some "2157"; approved_gene_symbol := Some "F8" |}.
Proof.
  apply (parse_line_reads_columns "306700" "gene" "2157" "F8" "3" "06700");
    try reflexivity. discriminate.
Defined.

Lemma split_length (s : string) :
  List.length (split TAB s) = S (count_tabs s).
Proof.
  induction s as [|c s IH]; [reflexivity|].
  cbn [split count_tabs]. destruct (Ascii.eqb c TAB).
  - cbn [List.length]. now rewrite IH.
  - destruct (split TAB s) as [|f fs]; [discriminate|]. cbn in *. lia.
Qed.

Lemma count_tabs_append (a b : string) :
  count_tabs (a +:+ b) = count_tabs a + count_tabs b.
Proof.
  induction a as [|c a IH]; [reflexivity|].
  rewrite append_cons. cbn [count_tabs]. rewrite IH. lia.
Qed.

Lemma count_tabs_free (a : string) : tab_free a = true -> count_tabs a = 0.
Proof.
  induction a as [|c a IH]; [reflexivity|].
  unfold tab_free. cbn [all_chars count_tabs]. intros H.
  apply andb_prop in H as [Hc Ha]. apply negb_true_iff in Hc.
  now rewrite Hc, (IH Ha).
Qed.

Lemma count_tabs_rstrip (s : string) : count_tabs (rstrip s) <= count_tabs s.
Proof.
  induction s as [|c s IH]; [reflexivity|].
  cbn [rstrip]. destruct (rstrip s) as [|c' s'].
  - destruct (is_space c); cbn [count_tabs]; lia.
  - cbn [count_tabs] in *. lia.
Qed.

Lemma rstrip_spaces (w : string) :
  all_chars is_space w = true -> rstrip w = EmptyString.
Proof.
  induction w as [|c w IH]; [reflexivity|].
  cbn [all_chars rstrip]. intros H. apply andb_prop in H as [Hc Hw].
  now rewrite (IH Hw), Hc.
Qed.

Lemma rstrip_append_spaces (x w : string) :
  all_chars is_space w = true -> rstrip (x +:+ w) = rstrip x.
Proof.
  intros Hw. induction x as [|c x IH]; [now apply rstrip_spaces|].
  rewrite append_cons. cbn [rstrip]. now rewrite IH.
Qed.

(** X9: a line of four columns whose symbol column is empty is skipped as
    a whole: [strip] removes the TAB that ends the line, three columns are
    left, and the line contributes nothing, not even its Entrez id. *)
Theorem parse_line_drops_empty_symbol (mim type entrez : string) (c : ascii) (r : string) :
  mim = String c r -> is_space c = false ->
  tab_free mim = true -> tab_free type = true -> tab_free entrez = true ->
  parse_line (tsv_line [mim; type; entrez; EmptyString]) = None /\
  forall tbl, add_line tbl (tsv_line [mim; type; entrez; EmptyString]) = tbl.
Proof.
  intros Hm Hc Tm Tt Te.
  assert (Hp : parse_line (tsv_line [mim; type; entrez; EmptyString]) = None).
  { rewrite tsv_line_4. unfold parse_line.
    destruct (startswith "#" _); [reflexivity|].
    unfold strip. rewrite (lstrip_clean mim c r Hm Hc).
    replace (mim +:+ String TAB (type +:+ String TAB
               (entrez +:+ String TAB (EmptyString +:+ NL))))
      with ((mim +:+ String TAB (type +:+ String TAB entrez))
              +:+ String TAB NL)
      by (rewrite !append_assoc, !append_cons, !append_assoc; reflexivity).
    rewrite rstrip_append_spaces by reflexivity.
    pose proof (split_length (rstrip (mim +:+ String TAB (type +:+ String TAB entrez))))
      as Hlen.
    pose proof (count_tabs_rstrip (mim +:+ String TAB (type +:+ String TAB entrez)))
      as Hle.
    assert (Htabs : count_tabs (mim +:+ String TAB (type +:+ String TAB entrez)) = 2).
    { rewrite count_tabs_append. cbn [count_tabs].
      rewrite count_tabs_append. cbn [count_tabs].
      rewrite (count_tabs_free _ Tm), (count_tabs_free _ Tt), (count_tabs_free _ Te).
      reflexivity. }
    rewrite Htabs in Hle.
    destruct (split TAB _) as [|p0 [|p1 [|p2 [|p3 ps]]]]; try reflexivity.
    cbn [List.length] in Hlen. lia. }
  split; [exact Hp|]. intros tbl. unfold add_line. now rewrite Hp.
Qed.

Lemma parse_line_drops_empty_symbol_witness :
  parse_line (tsv_line ["100070"; "phenotype"; "100329167"; EmptyString]) = None /\
  forall tbl, add_line tbl (tsv_line ["100070"; "phenotype"; "100329167"; EmptyString])
              = tbl.
Proof.
  apply (parse_line_drops_empty_symbol "100070" "phenotype" "100329167" "1" "00070");
    reflexivity.
Defined.

(** ** The gene block *)

(** X10: what [get_mim_gene_context] answers on a hit.  When the record
    found has both an Entrez id and a symbol, the answer is the four-line
    block of its fields; when either is [None], the concatenation raises
    TypeError and no context is returned at all. *)
Theorem mim_context_on_hit
    (tbl : gmap string gene_info) (query id : string) (rec : gene_info) :
  extract_gene_or_mim_from_query tbl query = Some id ->
  tbl !! id = Some rec ->
  get_mim_gene_context tbl query
  = match entrez_gene_id rec, approved_gene_symbol rec with
    | Some e, Some s => Ok (mim_lines (mim_number rec) (mim_entry_type rec) e s)
    | _, _ => Raise TypeError_concat_none
    end.
Proof.
  intros H Hrec. unfold get_mim_gene_context.
  rewrite H, (extract_gene_truthy _ _ _ H), Hrec.
  destruct rec as [n ty [e|] [s|]];
    cbv [mim_block str_add mbind py_result_bind mim_lines
         mim_number mim_entry_type entrez_gene_id approved_gene_symbol];
    rewrite ?append_assoc; reflexivity.
Qed.

Lemma mim_context_on_hit_witness :
  get_mim_gene_context sample_table "does brca1 matter"
  = Ok (mim_lines "113705" "gene" "672" "BRCA1").
Proof.
  apply (mim_context_on_hit sample_table "does brca1 matter" "BRCA1"
           {| mim_number := "113705"; mim_entry_type := "gene";
              entrez_gene_id := Some "672"; approved_gene_symbol := Some "BRCA1" |});
    vm_compute; reflexivity.
Defined.

(** ** The list of sources *)

Lemma take_prefix (n : nat) (s : string) :
  exists rest, s = take n s +:+ rest /\
               String.length (take n s) = Nat.min n (String.length s).
Proof.
  revert s. induction n as [|n IH]; intros s.
  - exists s. now split.
  - destruct s as [|c s]; [now exists EmptyString|].
    destruct (IH s) as (rest & Hs & Hlen). exists rest. cbn [take]. split.
    + rewrite append_cons. now f_equal.
    + cbn [String.length]. rewrite Hlen. reflexivity.
Qed.

Lemma truthy_ne (s : string) : truthy s = true <-> s <> EmptyString.
Proof. destruct s; cbn; split; congruence. Qed.

Lemma take_unique (u : string) : forall (n : nat) (rest : string),
  String.length u = Nat.min n (String.length (u +:+ rest)) ->
  take n (u +:+ rest) = u.
Proof.
  induction u as [|x u IH]; intros n rest Hlen.
  - change (EmptyString +:+ rest) with rest in *. cbn [String.length] in Hlen.
    destruct n; [reflexivity|]. destruct rest; [reflexivity | discriminate].
  - rewrite append_cons in *. cbn [String.length] in Hlen.
    destruct n as [|n]; [discriminate|]. cbn [take]. f_equal.
    apply IH. cbn [Nat.min] in Hlen. lia.
Qed.

(** The condition of line 250 and the string of line 251, for one document. *)
Lemma evidence_of_in (docs : list document) (e : string) :
  In e (evidence_of docs) <->
  exists d, In d docs /\
    truthy (get_or (metadata d) "pmid" EmptyString)
    && truthy (get_or (metadata d) "title" EmptyString) = true /\
    e = "- PMID: " +:+ get_or (metadata d) "pmid" EmptyString +:+ ", Title: "
        +:+ take 100 (get_or (metadata d) "title" EmptyString) +:+ "...".
Proof.
  induction docs as [|d docs IH].
  - split; [intros [] | intros (d & [] & _)].
  - cbn [evidence_of].
    destruct (truthy (get_or (metadata d) "pmid" EmptyString)
              && truthy (get_or (metadata d) "title" EmptyString)) eqn:E.
    + split.
      * intros [<-|Hin]; [exists d; repeat split; [now left | exact E]|].
        apply IH in Hin as (d' & Hd & H). exists d'. split; [now right | exact H].
      * intros (d' & [<-|Hd] & Hc & ->); [now left|].
        right. apply IH. now exists d'.
    + split.
      * intros Hin. apply IH in Hin as (d' & Hd & H).
        exists d'. split; [now right | exact H].
      * intros (d' & [<-|Hd] & Hc & ->); [congruence|].
        apply IH. now exists d'.
Qed.

Lemma truthy_get_or (m : gmap string string) (k : string) :
  truthy (get_or m k EmptyString) = true <->
  exists v, m !! k = Some v /\ v <> EmptyString.
Proof.
  unfold get_or. destruct (m !! k) as [v|]; cbn [default].
  - rewrite truthy_ne. split; [intros H; now exists v | now intros (? & [= <-] & ?)].
  - split; [discriminate | now intros (? & ? & _)].
Qed.

(** X11: the list of sources, for retrieved documents whose titles are
    ASCII.  There is at most one source per retrieved document, and a string
    is a source exactly when some retrieved document has a non-empty PMID
    and a non-empty title and the string is "- PMID: p, Title: t..." where
    [t] is the first 100 characters of the title (the whole title when it is
    not longer). *)
Theorem evidence_entries (docs : list document) :
  (forall d title, In d docs -> metadata d !! "title" = Some title ->
                   is_ascii title = true) ->
  List.length (evidence_of docs) <= List.length docs /\
  forall e, In e (evidence_of docs) <->
    exists d pmid title shown rest,
      In d docs /\
      metadata d !! "pmid" = Some pmid /\ metadata d !! "title" = Some title /\
      pmid <> EmptyString /\ title <> EmptyString /\
      title = shown +:+ rest /\
      String.length shown = Nat.min 100 (String.length title) /\
      e = "- PMID: " +:+ pmid +:+ ", Title: " +:+ shown +:+ "...".
Proof.
  intros _. split.
  - induction docs as [|d docs IH]; [reflexivity|].
    cbn [evidence_of]. destruct (_ && _); cbn [List.length]; lia.
  - intros e. rewrite evidence_of_in. split.
    + intros (d & Hd & Hc & ->). apply andb_prop in Hc as [Hp Ht].
      apply truthy_get_or in Hp as (p & Hp & Hpn).
      apply truthy_get_or in Ht as (t & Ht & Htn).
      destruct (take_prefix 100 t) as (rest & Hsplit & Hlen).
      exists d, p, t, (take 100 t), rest. unfold get_or. rewrite Hp, Ht.
      repeat split; assumption.
    + intros (d & p & t & shown & rest & Hd & Hp & Ht & Hpn & Htn & Hsplit & Hlen & ->).
      exists d. split; [exact Hd|]. unfold get_or. rewrite Hp, Ht. cbn [default].
      split.
      * apply andb_true_intro. split; now apply truthy_ne.
      * subst t. unfold id. now rewrite (take_unique _ _ _ Hlen).
Qed.

Lemma evidence_entries_witness :
  List.length (evidence_of (one_abstract "What is hemophilia A?" 10)) <= 1 /\
  In "- PMID: 12345678, Title: Factor VIII deficiency..."
     (evidence_of (one_abstract "What is hemophilia A?" 10)).
Proof.
  assert (Hascii : forall d title,
             In d (one_abstract "What is hemophilia A?" 10) ->
             metadata d !! "title" = Some title -> is_ascii title = true).
  { intros d title [<-|[]] Ht. vm_compute in Ht. injection Ht as <-. reflexivity. }
  destruct (evidence_entries (one_abstract "What is hemophilia A?" 10) Hascii)
    as [Hlen Hin].
  split; [exact Hlen|]. apply Hin.
  eexists _, "12345678", "Factor VIII deficiency", "Factor VIII deficiency", EmptyString.
  split; [left; reflexivity|].
  repeat split; try discriminate; vm_compute; reflexivity.
Defined.

(** ** Effects of loops *)

Lemma for_each_effects {A} (g : A -> list effect) (body : A -> run_t unit) :
  (forall x s, body x s = (Ok tt, {| history := history s; trace := trace s ++ g x |})) ->
  forall xs s,
    for_each xs body s
    = (Ok tt, {| history := history s; trace := trace s ++ concat (map g xs) |}).
Proof.
  intros Hbody xs. induction xs as [|x xs IH]; intros s.
  - cbn. rewrite app_nil_r. now destruct s.
  - cbn [for_each map concat]. unfold seq. rewrite Hbody, IH.
    cbn [history trace]. now rewrite <- app_assoc.
Qed.

Lemma for_each_markdown_with (h : string -> string) (xs : list string) (s : session) :
  for_each xs (fun x => emit (StMarkdown (h x))) s
  = (Ok tt, {| history := history s;
               trace := trace s ++ map (fun x => StMarkdown (h x)) xs |}).
Proof.
  rewrite (for_each_effects (fun x => [StMarkdown (h x)])) by reflexivity.
  do 3 f_equal. induction xs as [|x xs IH]; [reflexivity|]. cbn. now rewrite IH.
Qed.

Lemma searches_app (a b : list effect) : searches (a ++ b) = searches a + searches b.
Proof. unfold searches. now rewrite List.filter_app, List.length_app. Qed.

Lemma sources_quiet (ev : list string) :
  invocations (sources_effects ev) = 0 /\ searches (sources_effects ev) = 0.
Proof.
  split; [apply invocations_sources|].
  unfold sources_effects. destruct ev as [|x ev]; [reflexivity|].
  generalize (x :: ev). intros l. unfold searches. cbn [List.filter].
  induction l as [|y l IH]; [reflexivity | exact IH].
Qed.

Lemma message_effects_quiet (m : message) :
  invocations (message_effects m) = 0 /\ searches (message_effects m) = 0.
Proof.
  unfold message_effects.
  rewrite !invocations_app, !searches_app.
  destruct (sources_quiet (default [] (msg_evidence m))) as [-> ->].
  destruct (is_assistant (msg_role m) && question_truthy m); split; reflexivity.
Qed.

(** ** The chat display *)

Lemma display_message_effects (m : message) (s : session) :
  display_message m s
  = (Ok tt, {| history := history s; trace := trace s ++ message_effects m |}).
Proof.
  unfold display_message, message_effects, seq.
  destruct (is_assistant (msg_role m) && question_truthy m);
    unfold emit, ret; cbn [history trace];
    destruct (msg_evidence m) as [[|e es]|]; cbn [default sources_effects];
    rewrite ?for_each_markdown; cbn [history trace];
    rewrite <- ?app_assoc; cbn [app]; rewrite ?app_nil_r; reflexivity.
Qed.

(** X12: the chat display loop shows every stored message again, in order,
    and does nothing else: it leaves the history as it is and calls neither
    the vector store nor the chat model. *)
Theorem display_history_replays (st : session) :
  display_history st
  = (Ok tt, {| history := history st;
               trace := trace st ++ concat (map message_effects (history st)) |})
  /\ invocations (concat (map message_effects (history st))) = 0
  /\ searches (concat (map message_effects (history st))) = 0.
Proof.
  split.
  - unfold display_history.
    apply (for_each_effects message_effects), display_message_effects.
  - induction (history st) as [|m ms [IHi IHs]]; [split; reflexivity|].
    cbn [map concat]. rewrite invocations_app, searches_app, IHi, IHs.
    destruct (message_effects_quiet m) as [-> ->]. split; reflexivity.
Qed.

(** ** The sidebar *)

(** X13: the two columns of the sidebar together list every disease once,
    in the order of the table: the first column takes the first half
    (rounded down), the second column the rest. *)
Theorem sidebar_lists_all (diseases : list string) (st : session) :
  fst (sidebar_columns diseases) ++ snd (sidebar_columns diseases) = diseases /\
  List.length (fst (sidebar_columns diseases)) = Nat.div (List.length diseases) 2 /\
  sidebar_diseases diseases st
  = (Ok tt, {| history := history st;
               trace := trace st
                        ++ map (fun d => StMarkdown ("- " +:+ d)) diseases |}).
Proof.
  assert (Hcat : fst (sidebar_columns diseases) ++ snd (sidebar_columns diseases)
                 = diseases) by apply firstn_skipn.
  split; [exact Hcat|]. split.
  - unfold sidebar_columns. cbn [fst]. rewrite List.length_firstn.
    pose proof (Nat.Div0.div_lt_upper_bound (List.length diseases) 2
                  (S (List.length diseases))).
    lia.
  - unfold sidebar_diseases, seq.
    rewrite (for_each_markdown_with (fun d => "- " +:+ d)).
    rewrite (for_each_markdown_with (fun d => "- " +:+ d)).
    cbn [history trace]. rewrite <- app_assoc, <- map_app, Hcat. reflexivity.
Qed.

(** ** A whole turn *)

Section WholeTurn.

Variable similarity_search : string -> nat -> list document.
Variable llm_invoke : string -> py_result llm_answer.
Variable kg : gmap string (gmap string string).
Variable tbl : gmap string gene_info.

Lemma answer_query_completes (user_query mim_gene_context : string) (st : session) :
  truthy user_query = true ->
  get_mim_gene_context tbl user_query = Ok mim_gene_context ->
  handled (llm_invoke (turn_prompt similarity_search kg user_query mim_gene_context)) ->
  answer_query similarity_search llm_invoke kg tbl user_query st
  = (Ok tt,
     {| history := history st ++
          [ user_message user_query;
            assistant_message
              (text_of (llm_invoke (turn_prompt similarity_search kg user_query mim_gene_context)))
              (evidence_of (similarity_search user_query 10)) user_query ];
        trace := trace st ++
          [ SimilaritySearch user_query 10;
            LlmInvoke (turn_prompt similarity_search kg user_query mim_gene_context) ]
          ++ message_effects
               (assistant_message
                  (text_of (llm_invoke (turn_prompt similarity_search kg user_query mim_gene_context)))
                  (evidence_of (similarity_search user_query 10)) user_query) |}).
Proof.
  intros Hq Hmim Hllm. unfold answer_query, call_search, call_llm.
  unfold seq, history_append, emit, ret, lift, try_except.
  cbn [history trace fst snd]. rewrite Hmim, PROMPT_format_filled.
  fold (turn_prompt similarity_search kg user_query mim_gene_context).
  unfold message_effects, assistant_message, user_message, question_truthy, text_of.
  cbn [msg_role msg_question msg_content msg_evidence is_assistant default andb].
  unfold id. rewrite Hq. unfold handled in Hllm.
  destruct (llm_invoke (turn_prompt similarity_search kg user_query mim_gene_context))
    as [answer|e];
    [|rewrite (Hllm e eq_refl)];
    cbn [history trace];
    unfold sources_effects;
    destruct (evidence_of (similarity_search user_query 10)) as [|x ev];
    rewrite ?for_each_markdown; cbn [history trace];
    rewrite <- ?app_assoc; cbn [app]; rewrite ?app_nil_r; reflexivity.
Qed.

(** What is not an instance of [Exception] passes through line 269. *)
Lemma answer_query_interrupted
    (user_query mim_gene_context : string) (e : py_exception) (st : session) :
  get_mim_gene_context tbl user_query = Ok mim_gene_context ->
  llm_invoke (turn_prompt similarity_search kg user_query mim_gene_context) = Raise e ->
  exc_is_Exception e = false ->
  answer_query similarity_search llm_invoke kg tbl user_query st
  = (Raise e,
     {| history := history st ++ [user_message user_query];
        trace := trace st ++
          [ SimilaritySearch user_query 10;
            LlmInvoke (turn_prompt similarity_search kg user_query mim_gene_context) ] |}).
Proof.
  intros Hmim Hllm He. unfold answer_query, call_search, call_llm.
  unfold seq, history_append, emit, ret, lift, try_except.
  cbn [history trace fst snd]. rewrite Hmim, PROMPT_format_filled.
  fold (turn_prompt similarity_search kg user_query mim_gene_context).
  rewrite Hllm, He. cbn [history trace]. rewrite <- !app_assoc. reflexivity.
Qed.

Lemma answer_query_aborts (user_query : string) (e : py_exception) (st : session) :
  get_mim_gene_context tbl user_query = Raise e ->
  answer_query similarity_search llm_invoke kg tbl user_query st
  = (Raise e,
     {| history := history st ++ [user_message user_query];
        trace := trace st ++ [SimilaritySearch user_query 10] |}).
Proof.
  intros Hmim. unfold answer_query, call_search.
  unfold seq, history_append, emit, ret, lift.
  cbn [history trace]. now rewrite Hmim.
Qed.

(** X14: a turn whose model call returns.  The user's message and then one
    assistant message are appended to the history; the assistant message
    holds the [content] of the model's answer when it has one (its [str]
    otherwise), the list of sources and the question; the vector store is
    searched once, with k = 10, before the model is called once. *)
Theorem turn_with_answer
    (user_query mim_gene_context : string) (answer : llm_answer) (st : session) :
  truthy user_query = true ->
  get_mim_gene_context tbl user_query = Ok mim_gene_context ->
  llm_invoke (turn_prompt similarity_search kg user_query mim_gene_context) = Ok answer ->
  exists shown,
    on_chat_input similarity_search llm_invoke kg tbl (Some user_query) st
    = (Ok tt,
       {| history := history st ++
            [ user_message user_query;
              assistant_message (answer_text_of answer)
                (evidence_of (similarity_search user_query 10)) user_query ];
          trace := trace st ++
            SimilaritySearch user_query 10
            :: LlmInvoke (turn_prompt similarity_search kg user_query mim_gene_context) :: shown |})
    /\ shown = [ StMarkdown ("**Question:** " +:+ user_query);
                 StMarkdown (answer_text_of answer) ]
               ++ sources_effects (evidence_of (similarity_search user_query 10))
    /\ invocations shown = 0 /\ searches shown = 0.
Proof.
  intros Hq Hmim Hllm. eexists. split; [|split; [reflexivity|]].
  - unfold on_chat_input. rewrite Hq.
    rewrite (answer_query_completes _ _ _ Hq Hmim)
      by (intros e He; rewrite Hllm in He; discriminate).
    rewrite Hllm.
    unfold message_effects, assistant_message, question_truthy.
    cbn [msg_role msg_question msg_content msg_evidence is_assistant default andb].
    unfold id. rewrite Hq. reflexivity.
  - rewrite invocations_app, searches_app.
    destruct (sources_quiet (evidence_of (similarity_search user_query 10))) as [-> ->].
    split; reflexivity.
Qed.

(** X15: a turn that fails before the model is asked.  When building the
    gene context raises, the exception leaves the turn uncaught: the user's
    message is already in the history and the vector store was searched, but
    no assistant message is stored, nothing is rendered and the model is not
    called. *)
Theorem turn_aborted_by_gene_context
    (user_query : string) (e : py_exception) (st : session) :
  truthy user_query = true ->
  get_mim_gene_context tbl user_query = Raise e ->
  on_chat_input similarity_search llm_invoke kg tbl (Some user_query) st
  = (Raise e,
     {| history := history st ++ [user_message user_query];
        trace := trace st ++ [SimilaritySearch user_query 10] |})
  /\ invocations [SimilaritySearch user_query 10] = 0.
Proof.
  intros Hq Hmim. unfold on_chat_input. rewrite Hq.
  now rewrite (answer_query_aborts _ _ _ Hmim).
Qed.

(** X16: whatever the input and whatever the services do, one run of the
    chat input only appends: the old history and the old trace are kept as
    they are, at most the user's message and one assistant message are
    added, and the vector store and the model are each called at most
    once. *)
Theorem turn_only_appends (input : option string) (st : session) :
  exists added done,
    snd (on_chat_input similarity_search llm_invoke kg tbl input st)
    = {| history := history st ++ added; trace := trace st ++ done |}
    /\ (added = [] \/
        (exists q, added = [user_message q]) \/
        (exists q text ev, added = [user_message q; assistant_message text ev q]))
    /\ invocations done <= 1 /\ searches done <= 1.
Proof.
  assert (Hidle : exists added done,
             st = {| history := history st ++ added; trace := trace st ++ done |}
             /\ (added = [] \/
                 (exists q, added = [user_message q]) \/
                 (exists q text ev,
                    added = [user_message q; assistant_message text ev q]))
             /\ invocations done <= 1 /\ searches done <= 1).
  { exists [], []. rewrite !app_nil_r. destruct st. cbn. repeat split; auto. }
  unfold on_chat_input. destruct input as [q|]; [|exact Hidle].
  destruct (truthy q) eqn:Hq; [|exact Hidle].
  destruct (get_mim_gene_context tbl q) as [mc|e] eqn:Hmim.
  - assert (Hcases : handled (llm_invoke (turn_prompt similarity_search kg q mc)) \/
                     exists e, llm_invoke (turn_prompt similarity_search kg q mc) = Raise e
                               /\ exc_is_Exception e = false).
    { unfold handled.
      destruct (llm_invoke (turn_prompt similarity_search kg q mc)) as [a|e];
        [left; discriminate|].
      destruct (exc_is_Exception e) eqn:He.
      - left. now intros e' [= <-].
      - right. now exists e. }
    destruct Hcases as [Hllm | (e & Hllm & He)].
    + rewrite (answer_query_completes _ _ _ Hq Hmim Hllm). cbn [snd].
      eexists _, _. split; [reflexivity|]. split.
      * right. right. eauto.
      * rewrite !invocations_app, !searches_app.
        destruct (message_effects_quiet
                    (assistant_message
                       (text_of (llm_invoke (turn_prompt similarity_search kg q mc)))
                       (evidence_of (similarity_search q 10)) q)) as [-> ->].
        split; cbn; lia.
    + rewrite (answer_query_interrupted _ _ _ _ Hmim Hllm He). cbn [snd].
      eexists _, _. split; [reflexivity|]. split.
      * right. left. eauto.
      * split; cbn; lia.
  - rewrite (answer_query_aborts _ _ _ Hmim). cbn [snd].
    eexists _, _. split; [reflexivity|]. split.
    + right. left. eauto.
    + split; cbn; lia.
Qed.

(** X17: what a completed turn renders for its answer is what the chat
    display loop renders for the stored assistant message on every later
    run.  When the model call returns or raises an instance of [Exception],
    the turn completes, and after the search and the model call its effects
    are exactly the effects of displaying the last message of the new
    history. *)
Theorem turn_rendering_is_replayed
    (user_query mim_gene_context : string) (st : session) :
  truthy user_query = true ->
  get_mim_gene_context tbl user_query = Ok mim_gene_context ->
  handled (llm_invoke (turn_prompt similarity_search kg user_query mim_gene_context)) ->
  exists st' m,
    on_chat_input similarity_search llm_invoke kg tbl (Some user_query) st
    = (Ok tt, st')
    /\ last (history st') = Some m
    /\ trace st' = trace st
                   ++ [ SimilaritySearch user_query 10;
                        LlmInvoke (turn_prompt similarity_search kg user_query mim_gene_context) ]
                   ++ message_effects m
    /\ forall s, display_message m s
                 = (Ok tt, {| history := history s;
                              trace := trace s ++ message_effects m |}).
Proof.
  intros Hq Hmim Hllm. unfold on_chat_input. rewrite Hq.
  rewrite (answer_query_completes _ _ _ Hq Hmim Hllm).
  eexists _, _. split; [reflexivity|]. cbn [history trace].
  split; [|split; [reflexivity | apply display_message_effects]].
  match goal with
  | |- last (?h ++ [?u; ?a]) = _ =>
      replace (h ++ [u; a]) with ((h ++ [u]) ++ [a]) by (now rewrite <- app_assoc)
  end.
  apply last_snoc.
Qed.

End WholeTurn.

Lemma turn_with_answer_witness :
  exists st',
    on_chat_input one_abstract answering_llm sample_kg sample_table
      (Some "What is hemophilia A?") new_session = (Ok tt, st')
    /\ map msg_content (history st')
       = ["What is hemophilia A?"; "Hemophilia A is a bleeding disorder."].
Proof.
  destruct (turn_with_answer one_abstract answering_llm sample_kg sample_table
              "What is hemophilia A?" MIM_NOT_FOUND
              (WithContent "Hemophilia A is a bleeding disorder.") new_session)
    as (shown & Hrun & _).
  - reflexivity.
  - vm_compute. reflexivity.
  - reflexivity.
  - eexists. split; [exact Hrun | reflexivity].
Defined.

Lemma turn_aborted_by_gene_context_witness :
  on_chat_input one_abstract answering_llm sample_kg table_without_entrez
    (Some "What about ABDC?") new_session
  = (Raise TypeError_concat_none,
     {| history := [user_message "What about ABDC?"];
        trace := [SimilaritySearch "What about ABDC?" 10] |}).
Proof.
  apply (turn_aborted_by_gene_context one_abstract answering_llm sample_kg
           table_without_entrez "What about ABDC?" TypeError_concat_none new_session).
  - reflexivity.
  - vm_compute. reflexivity.
Defined.

Lemma turn_rendering_is_replayed_witness :
  exists st' m,
    on_chat_input one_abstract failing_llm sample_kg sample_table
      (Some "What is hemophilia A?") new_session = (Ok tt, st')
    /\ last (history st') = Some m
    /\ forall s, display_message m s
                 = (Ok tt, {| history := history s;
                              trace := trace s ++ message_effects m |}).
Proof.
  destruct (turn_rendering_is_replayed one_abstract failing_llm sample_kg sample_table
              "What is hemophilia A?" MIM_NOT_FOUND new_session)
    as (st' & m & Hrun & Hlast & _ & Hshow).
  - reflexivity.
  - vm_compute. reflexivity.
  - intros e [= <-]. reflexivity.
  - exists st', m. split; [exact Hrun|]. split; [exact Hlast | exact Hshow].
Defined.
